(** * FriendlyChat: the page controller of [scripts/main.js]

    A shallow embedding of the [FriendlyChat] object: its fields, the part of
    the page it writes to, and the commands it sends to the three services it
    talks to (the realtime store, the peer broker and the media devices).
    Every prototype method of the source is a function of the same name on
    [State]; a method that can raise a [TypeError] returns [Throw] with the
    state as it was mutated up to the raise.

    The services are not part of the source.  Their completions and
    notifications are the constructors of [Event]; [step] dispatches each one
    to the callback the source registered for it.  What is taken about them:

    - the store hands out the children of the users collection in the order
      of their keys, and those of the messages collection in the order in
      which they arrived (the order of the keys [push] makes); it delivers
      the children that are already there as soon as a [child_added] callback
      is registered, and runs every callback on its own: a raise ends that
      callback and nothing else;
    - the broker library files a media connection in [peer.connections]
      under the remote id when a call is placed or comes in, and may rewrite
      that table at any time.

    The markup of the page is not part of the source either.  The page is
    taken to have the elements the script looks up and no other element with
    an id, all of them children of the body; the two lists are taken to
    stand last, [#messages] before [#users], and the other elements to hold
    no element of the classes the two templates use.  The keys of messages,
    the uids, the peer identifiers and the ids of the markup all are ids of
    one document: [getElementById] searches all of it. *)

From Stdlib Require Import Ascii String.
From stdpp Require Import gmap strings list fin_maps sorting.

(** ** JavaScript values *)

(** A string-valued property or argument that may be [undefined] or [null]. *)
Abbreviation jsstring := (option string) (only parsing).

(** [if (v)] on such a value: absent and the empty string are falsy. *)
Definition truthy (v : jsstring) : bool :=
  match v with
  | Some s => if decide (s = "") then false else true
  | None => false
  end.

(** [a || b] on strings. *)
Definition or_default (v : jsstring) (d : string) : string :=
  if truthy v then default d v else d.

(** [s.startsWith(p)] *)
Fixpoint startsWith (p s : string) : bool :=
  match p, s with
  | EmptyString, _ => true
  | String a p', String b s' => if decide (a = b) then startsWith p' s' else false
  | String _ _, EmptyString => false
  end.

(** [s.match(p)] for a pattern [p.*] with [p] literal: [p] occurs in [s]. *)
Fixpoint occurs (p s : string) : bool :=
  startsWith p s || match s with
                    | EmptyString => false
                    | String _ s' => occurs p s'
                    end.

Definition newline : ascii := "010"%char.

(** The serialisation of a text node ([innerHTML] read after [textContent]
    was written): the three markup characters and the no-break space are
    escaped. *)
Fixpoint escapeHTML (s : string) : string :=
  match s with
  | EmptyString => EmptyString
  | String c s' =>
      if decide (c = "&"%char) then "&amp;" +:+ escapeHTML s'
      else if decide (c = "<"%char) then "&lt;" +:+ escapeHTML s'
      else if decide (c = ">"%char) then "&gt;" +:+ escapeHTML s'
      else match s' with
           | String d s'' =>
               if decide (c = "194"%char ∧ d = "160"%char)
               then "&nbsp;" +:+ escapeHTML s''
               else String c (escapeHTML s')
           | EmptyString => String c EmptyString
           end
  end.

(** [s.replace(/\n/g, '<br>')] *)
Fixpoint replace_newlines (s : string) : string :=
  match s with
  | EmptyString => EmptyString
  | String c s' =>
      if decide (c = newline) then "<br>" +:+ replace_newlines s'
      else String c (replace_newlines s')
  end.

(** ** Records of the services *)

(** [firebase.auth().currentUser] *)
Record AuthUser := {
  uid : string;
  displayName : string;
  email : string;
  photoURL : jsstring
}.

(** A child of [/users], keyed by uid. *)
Record UserRecord := {
  ur_name : string;
  ur_email : string;
  ur_photoUrl : jsstring;
  ur_peerId : jsstring
}.

(** A child of [/messages], keyed by the store. *)
Record MessageRecord := {
  mr_name : string;
  mr_text : jsstring;
  mr_photoUrl : jsstring;
  mr_imageUrl : jsstring
}.

(** An entry of a file input's [files]. *)
Record File := { f_name : string; f_type : string }.

(** A media stream handed out by [getUserMedia] or by a call. *)
Abbreviation Stream := nat (only parsing).

(** A [Peer] object: its identity and the keys of its [connections] table
    that hold a value.  The table belongs to the broker library; the page
    only reads it. *)
Record Peer := { peer_no : nat; connections : gset string }.

(** A media connection: its identity and the remote peer identifier. *)
Record Call := { c_no : nat; c_peer : jsstring }.

Inductive ChildEvent := child_added | child_changed | child_removed.
Inductive CallEvent := on_stream | on_close | on_error.

#[global] Instance ChildEvent_eq_dec : EqDecision ChildEvent.
Proof. solve_decision. Defined.
#[global] Instance CallEvent_eq_dec : EqDecision CallEvent.
Proof. solve_decision. Defined.

(** The functions the page registers on a call. *)
Inductive CallHandler :=
| HEndCall          (* this.endCall.bind(this) *)
| HLogEndCall       (* function (err) { console.error(err); this.endCall(); } *)
| HPeerVideo.       (* function (stream) { peerVideo.src = ... } *)

(** The callbacks handed to [initMeidaStream]. *)
Inductive MediaCallback :=
| CbSignedIn        (* the closure of onAuthStateChanged *)
| CbCallToUser.     (* this.callToUser.bind(this) *)

Inductive Settled := Pending | Granted | Denied.

(** ** The page *)

Definition LOADING_IMAGE_URL : string := "https://www.google.com/images/spin-32.gif".
Definition PROFILE_PLACEHOLDER : string := "/images/profile_placeholder.png".

Record Img := { img_no : nat; img_src : string }.

(** The content of a message entry's [.message] element: nothing, the markup
    last assigned to its [innerHTML], or one image. *)
Inductive MessageBody :=
| BodyEmpty
| BodyHtml (innerHTML : string)
| BodyImg (image : Img).

(** An instance of [MESSAGE_TEMPLATE]. *)
Record MessageDiv := {
  md_id : string;
  md_pic : jsstring;          (* style.backgroundImage of .pic *)
  md_name : string;           (* textContent of .name *)
  md_body : MessageBody
}.

(** What a click on a roster entry's phone button runs. *)
Inductive Action :=
| ActEndCall
| ActCallToUser (p : string).

(** A function object registered as a click listener. *)
Record Listener := { l_no : nat; l_action : Action }.

(** The [a.phone] element of a roster entry. *)
Record PhoneBtn := {
  ph_id : jsstring;
  ph_icon : string;           (* textContent of .material-icons *)
  ph_click : list Listener
}.

(** An instance of [USER_TEMPLATE]. *)
Record UserDiv := {
  ud_id : string;
  ud_pic : jsstring;
  ud_name : string;
  ud_phone : option PhoneBtn  (* None once the button was removed *)
}.

(** The value [getUserByPeerId] returns. *)
Record UserInfo := { ui_uid : jsstring; ui_name : string; ui_peerId : string }.

(** The argument of [MaterialSnackbar.showSnackbar]. *)
Record Notification := {
  n_message : string;
  n_timeout : N;                  (* milliseconds *)
  n_action : option (UserInfo * Call);   (* actionHandler: answerCall(user, call) *)
  n_actionText : jsstring
}.

(** The signed-in header. *)
Record Chrome := {
  userPic : jsstring;
  userName : string;
  profileHidden : bool;
  signInHidden : bool
}.

(** ** Commands sent to the services *)

Inductive PushThen :=
| ThenResetInput                      (* saveMessage's continuation *)
| ThenUpload (u : AuthUser) (f : File).  (* saveImageMessage's continuation *)

Inductive FirebaseCmd :=
| SignInWithPopup
| SignOut
| Push (r : MessageRecord) (k : PushThen)
| OnDisconnectRemove (u : string)
| SetUser (u : string) (r : UserRecord)
| GetMetadata (uri : string) (img : nat)
| Put (path : string) (f : File) (key : string)
| Update (key : string) (imageUrl : string).

Inductive BrokerCmd :=
| NewPeer (p : nat)
| Destroy (p : nat)
| PlaceCall (remote : jsstring) (s : option Stream) (c : nat)
| Answer (c : nat) (s : option Stream)
| CloseCall (c : nat).

Inductive ConsoleMsg :=
| ErrWrite | ErrUpload | ErrMedia | ErrPeer | ErrCall.

(** ** The state *)

Record State := {
  (* fields of the FriendlyChat object *)
  currentUser : option AuthUser;
  messagesRef : bool;
  mediaStream : option Stream;
  peer : option Peer;
  peerId : jsstring;
  call : option Call;
  isOnline : option bool;
  CALL_EVENTLISTERS : gmap string Listener;
  (* the page *)
  messageList : list MessageDiv;
  userList : list UserDiv;
  messageInput : string;
  submitDisabled : bool;
  mediaCapture : list File;
  snackbar : list Notification;
  chrome : Chrome;
  myVideo : option Stream;
  peerVideo : option Stream;
  timers : list string;
  (* the services *)
  console : list ConsoleMsg;
  firebase_log : list FirebaseCmd;
  broker_log : list BrokerCmd;
  media_requests : list (MediaCallback * Settled);
  call_on : list (nat * CallEvent * CallHandler);
  msg_subs : list (nat * ChildEvent);
  user_subs : list ChildEvent;
  next_id : nat;
  db_users : gmap string UserRecord;
  db_messages : list (string * MessageRecord)
}.

Definition set_currentUser (v : _) (st : State) : State :=
  {| currentUser := v; messagesRef := messagesRef st; mediaStream := mediaStream st;
     peer := peer st; peerId := peerId st; call := call st; isOnline := isOnline st;
     CALL_EVENTLISTERS := CALL_EVENTLISTERS st; messageList := messageList st;
     userList := userList st; messageInput := messageInput st;
     submitDisabled := submitDisabled st; mediaCapture := mediaCapture st;
     snackbar := snackbar st; chrome := chrome st; myVideo := myVideo st;
     peerVideo := peerVideo st; timers := timers st; console := console st;
     firebase_log := firebase_log st; broker_log := broker_log st;
     media_requests := media_requests st; call_on := call_on st; msg_subs := msg_subs st;
     user_subs := user_subs st; next_id := next_id st; db_users := db_users st;
     db_messages := db_messages st |}.
Definition set_messagesRef (v : _) (st : State) : State :=
  {| currentUser := currentUser st; messagesRef := v; mediaStream := mediaStream st;
     peer := peer st; peerId := peerId st; call := call st; isOnline := isOnline st;
     CALL_EVENTLISTERS := CALL_EVENTLISTERS st; messageList := messageList st;
     userList := userList st; messageInput := messageInput st;
     submitDisabled := submitDisabled st; mediaCapture := mediaCapture st;
     snackbar := snackbar st; chrome := chrome st; myVideo := myVideo st;
     peerVideo := peerVideo st; timers := timers st; console := console st;
     firebase_log := firebase_log st; broker_log := broker_log st;
     media_requests := media_requests st; call_on := call_on st; msg_subs := msg_subs st;
     user_subs := user_subs st; next_id := next_id st; db_users := db_users st;
     db_messages := db_messages st |}.
Definition set_mediaStream (v : _) (st : State) : State :=
  {| currentUser := currentUser st; messagesRef := messagesRef st; mediaStream := v;
     peer := peer st; peerId := peerId st; call := call st; isOnline := isOnline st;
     CALL_EVENTLISTERS := CALL_EVENTLISTERS st; messageList := messageList st;
     userList := userList st; messageInput := messageInput st;
     submitDisabled := submitDisabled st; mediaCapture := mediaCapture st;
     snackbar := snackbar st; chrome := chrome st; myVideo := myVideo st;
     peerVideo := peerVideo st; timers := timers st; console := console st;
     firebase_log := firebase_log st; broker_log := broker_log st;
     media_requests := media_requests st; call_on := call_on st; msg_subs := msg_subs st;
     user_subs := user_subs st; next_id := next_id st; db_users := db_users st;
     db_messages := db_messages st |}.
Definition set_peer (v : _) (st : State) : State :=
  {| currentUser := currentUser st; messagesRef := messagesRef st;
     mediaStream := mediaStream st; peer := v; peerId := peerId st; call := call st;
     isOnline := isOnline st; CALL_EVENTLISTERS := CALL_EVENTLISTERS st;
     messageList := messageList st; userList := userList st; messageInput := messageInput st;
     submitDisabled := submitDisabled st; mediaCapture := mediaCapture st;
     snackbar := snackbar st; chrome := chrome st; myVideo := myVideo st;
     peerVideo := peerVideo st; timers := timers st; console := console st;
     firebase_log := firebase_log st; broker_log := broker_log st;
     media_requests := media_requests st; call_on := call_on st; msg_subs := msg_subs st;
     user_subs := user_subs st; next_id := next_id st; db_users := db_users st;
     db_messages := db_messages st |}.
Definition set_peerId (v : _) (st : State) : State :=
  {| currentUser := currentUser st; messagesRef := messagesRef st;
     mediaStream := mediaStream st; peer := peer st; peerId := v; call := call st;
     isOnline := isOnline st; CALL_EVENTLISTERS := CALL_EVENTLISTERS st;
     messageList := messageList st; userList := userList st; messageInput := messageInput st;
     submitDisabled := submitDisabled st; mediaCapture := mediaCapture st;
     snackbar := snackbar st; chrome := chrome st; myVideo := myVideo st;
     peerVideo := peerVideo st; timers := timers st; console := console st;
     firebase_log := firebase_log st; broker_log := broker_log st;
     media_requests := media_requests st; call_on := call_on st; msg_subs := msg_subs st;
     user_subs := user_subs st; next_id := next_id st; db_users := db_users st;
     db_messages := db_messages st |}.
Definition set_call (v : _) (st : State) : State :=
  {| currentUser := currentUser st; messagesRef := messagesRef st;
     mediaStream := mediaStream st; peer := peer st; peerId := peerId st; call := v;
     isOnline := isOnline st; CALL_EVENTLISTERS := CALL_EVENTLISTERS st;
     messageList := messageList st; userList := userList st; messageInput := messageInput st;
     submitDisabled := submitDisabled st; mediaCapture := mediaCapture st;
     snackbar := snackbar st; chrome := chrome st; myVideo := myVideo st;
     peerVideo := peerVideo st; timers := timers st; console := console st;
     firebase_log := firebase_log st; broker_log := broker_log st;
     media_requests := media_requests st; call_on := call_on st; msg_subs := msg_subs st;
     user_subs := user_subs st; next_id := next_id st; db_users := db_users st;
     db_messages := db_messages st |}.
Definition set_isOnline (v : _) (st : State) : State :=
  {| currentUser := currentUser st; messagesRef := messagesRef st;
     mediaStream := mediaStream st; peer := peer st; peerId := peerId st; call := call st;
     isOnline := v; CALL_EVENTLISTERS := CALL_EVENTLISTERS st; messageList := messageList st;
     userList := userList st; messageInput := messageInput st;
     submitDisabled := submitDisabled st; mediaCapture := mediaCapture st;
     snackbar := snackbar st; chrome := chrome st; myVideo := myVideo st;
     peerVideo := peerVideo st; timers := timers st; console := console st;
     firebase_log := firebase_log st; broker_log := broker_log st;
     media_requests := media_requests st; call_on := call_on st; msg_subs := msg_subs st;
     user_subs := user_subs st; next_id := next_id st; db_users := db_users st;
     db_messages := db_messages st |}.
Definition set_CALL_EVENTLISTERS (v : _) (st : State) : State :=
  {| currentUser := currentUser st; messagesRef := messagesRef st;
     mediaStream := mediaStream st; peer := peer st; peerId := peerId st; call := call st;
     isOnline := isOnline st; CALL_EVENTLISTERS := v; messageList := messageList st;
     userList := userList st; messageInput := messageInput st;
     submitDisabled := submitDisabled st; mediaCapture := mediaCapture st;
     snackbar := snackbar st; chrome := chrome st; myVideo := myVideo st;
     peerVideo := peerVideo st; timers := timers st; console := console st;
     firebase_log := firebase_log st; broker_log := broker_log st;
     media_requests := media_requests st; call_on := call_on st; msg_subs := msg_subs st;
     user_subs := user_subs st; next_id := next_id st; db_users := db_users st;
     db_messages := db_messages st |}.
Definition set_messageList (v : _) (st : State) : State :=
  {| currentUser := currentUser st; messagesRef := messagesRef st;
     mediaStream := mediaStream st; peer := peer st; peerId := peerId st; call := call st;
     isOnline := isOnline st; CALL_EVENTLISTERS := CALL_EVENTLISTERS st; messageList := v;
     userList := userList st; messageInput := messageInput st;
     submitDisabled := submitDisabled st; mediaCapture := mediaCapture st;
     snackbar := snackbar st; chrome := chrome st; myVideo := myVideo st;
     peerVideo := peerVideo st; timers := timers st; console := console st;
     firebase_log := firebase_log st; broker_log := broker_log st;
     media_requests := media_requests st; call_on := call_on st; msg_subs := msg_subs st;
     user_subs := user_subs st; next_id := next_id st; db_users := db_users st;
     db_messages := db_messages st |}.
Definition set_userList (v : _) (st : State) : State :=
  {| currentUser := currentUser st; messagesRef := messagesRef st;
     mediaStream := mediaStream st; peer := peer st; peerId := peerId st; call := call st;
     isOnline := isOnline st; CALL_EVENTLISTERS := CALL_EVENTLISTERS st;
     messageList := messageList st; userList := v; messageInput := messageInput st;
     submitDisabled := submitDisabled st; mediaCapture := mediaCapture st;
     snackbar := snackbar st; chrome := chrome st; myVideo := myVideo st;
     peerVideo := peerVideo st; timers := timers st; console := console st;
     firebase_log := firebase_log st; broker_log := broker_log st;
     media_requests := media_requests st; call_on := call_on st; msg_subs := msg_subs st;
     user_subs := user_subs st; next_id := next_id st; db_users := db_users st;
     db_messages := db_messages st |}.
Definition set_messageInput (v : _) (st : State) : State :=
  {| currentUser := currentUser st; messagesRef := messagesRef st;
     mediaStream := mediaStream st; peer := peer st; peerId := peerId st; call := call st;
     isOnline := isOnline st; CALL_EVENTLISTERS := CALL_EVENTLISTERS st;
     messageList := messageList st; userList := userList st; messageInput := v;
     submitDisabled := submitDisabled st; mediaCapture := mediaCapture st;
     snackbar := snackbar st; chrome := chrome st; myVideo := myVideo st;
     peerVideo := peerVideo st; timers := timers st; console := console st;
     firebase_log := firebase_log st; broker_log := broker_log st;
     media_requests := media_requests st; call_on := call_on st; msg_subs := msg_subs st;
     user_subs := user_subs st; next_id := next_id st; db_users := db_users st;
     db_messages := db_messages st |}.
Definition set_submitDisabled (v : _) (st : State) : State :=
  {| currentUser := currentUser st; messagesRef := messagesRef st;
     mediaStream := mediaStream st; peer := peer st; peerId := peerId st; call := call st;
     isOnline := isOnline st; CALL_EVENTLISTERS := CALL_EVENTLISTERS st;
     messageList := messageList st; userList := userList st; messageInput := messageInput st;
     submitDisabled := v; mediaCapture := mediaCapture st; snackbar := snackbar st;
     chrome := chrome st; myVideo := myVideo st; peerVideo := peerVideo st;
     timers := timers st; console := console st; firebase_log := firebase_log st;
     broker_log := broker_log st; media_requests := media_requests st; call_on := call_on st;
     msg_subs := msg_subs st; user_subs := user_subs st; next_id := next_id st;
     db_users := db_users st; db_messages := db_messages st |}.
Definition set_mediaCapture (v : _) (st : State) : State :=
  {| currentUser := currentUser st; messagesRef := messagesRef st;
     mediaStream := mediaStream st; peer := peer st; peerId := peerId st; call := call st;
     isOnline := isOnline st; CALL_EVENTLISTERS := CALL_EVENTLISTERS st;
     messageList := messageList st; userList := userList st; messageInput := messageInput st;
     submitDisabled := submitDisabled st; mediaCapture := v; snackbar := snackbar st;
     chrome := chrome st; myVideo := myVideo st; peerVideo := peerVideo st;
     timers := timers st; console := console st; firebase_log := firebase_log st;
     broker_log := broker_log st; media_requests := media_requests st; call_on := call_on st;
     msg_subs := msg_subs st; user_subs := user_subs st; next_id := next_id st;
     db_users := db_users st; db_messages := db_messages st |}.
Definition set_snackbar (v : _) (st : State) : State :=
  {| currentUser := currentUser st; messagesRef := messagesRef st;
     mediaStream := mediaStream st; peer := peer st; peerId := peerId st; call := call st;
     isOnline := isOnline st; CALL_EVENTLISTERS := CALL_EVENTLISTERS st;
     messageList := messageList st; userList := userList st; messageInput := messageInput st;
     submitDisabled := submitDisabled st; mediaCapture := mediaCapture st; snackbar := v;
     chrome := chrome st; myVideo := myVideo st; peerVideo := peerVideo st;
     timers := timers st; console := console st; firebase_log := firebase_log st;
     broker_log := broker_log st; media_requests := media_requests st; call_on := call_on st;
     msg_subs := msg_subs st; user_subs := user_subs st; next_id := next_id st;
     db_users := db_users st; db_messages := db_messages st |}.
Definition set_chrome (v : _) (st : State) : State :=
  {| currentUser := currentUser st; messagesRef := messagesRef st;
     mediaStream := mediaStream st; peer := peer st; peerId := peerId st; call := call st;
     isOnline := isOnline st; CALL_EVENTLISTERS := CALL_EVENTLISTERS st;
     messageList := messageList st; userList := userList st; messageInput := messageInput st;
     submitDisabled := submitDisabled st; mediaCapture := mediaCapture st;
     snackbar := snackbar st; chrome := v; myVideo := myVideo st; peerVideo := peerVideo st;
     timers := timers st; console := console st; firebase_log := firebase_log st;
     broker_log := broker_log st; media_requests := media_requests st; call_on := call_on st;
     msg_subs := msg_subs st; user_subs := user_subs st; next_id := next_id st;
     db_users := db_users st; db_messages := db_messages st |}.
Definition set_myVideo (v : _) (st : State) : State :=
  {| currentUser := currentUser st; messagesRef := messagesRef st;
     mediaStream := mediaStream st; peer := peer st; peerId := peerId st; call := call st;
     isOnline := isOnline st; CALL_EVENTLISTERS := CALL_EVENTLISTERS st;
     messageList := messageList st; userList := userList st; messageInput := messageInput st;
     submitDisabled := submitDisabled st; mediaCapture := mediaCapture st;
     snackbar := snackbar st; chrome := chrome st; myVideo := v; peerVideo := peerVideo st;
     timers := timers st; console := console st; firebase_log := firebase_log st;
     broker_log := broker_log st; media_requests := media_requests st; call_on := call_on st;
     msg_subs := msg_subs st; user_subs := user_subs st; next_id := next_id st;
     db_users := db_users st; db_messages := db_messages st |}.
Definition set_peerVideo (v : _) (st : State) : State :=
  {| currentUser := currentUser st; messagesRef := messagesRef st;
     mediaStream := mediaStream st; peer := peer st; peerId := peerId st; call := call st;
     isOnline := isOnline st; CALL_EVENTLISTERS := CALL_EVENTLISTERS st;
     messageList := messageList st; userList := userList st; messageInput := messageInput st;
     submitDisabled := submitDisabled st; mediaCapture := mediaCapture st;
     snackbar := snackbar st; chrome := chrome st; myVideo := myVideo st; peerVideo := v;
     timers := timers st; console := console st; firebase_log := firebase_log st;
     broker_log := broker_log st; media_requests := media_requests st; call_on := call_on st;
     msg_subs := msg_subs st; user_subs := user_subs st; next_id := next_id st;
     db_users := db_users st; db_messages := db_messages st |}.
Definition set_timers (v : _) (st : State) : State :=
  {| currentUser := currentUser st; messagesRef := messagesRef st;
     mediaStream := mediaStream st; peer := peer st; peerId := peerId st; call := call st;
     isOnline := isOnline st; CALL_EVENTLISTERS := CALL_EVENTLISTERS st;
     messageList := messageList st; userList := userList st; messageInput := messageInput st;
     submitDisabled := submitDisabled st; mediaCapture := mediaCapture st;
     snackbar := snackbar st; chrome := chrome st; myVideo := myVideo st;
     peerVideo := peerVideo st; timers := v; console := console st;
     firebase_log := firebase_log st; broker_log := broker_log st;
     media_requests := media_requests st; call_on := call_on st; msg_subs := msg_subs st;
     user_subs := user_subs st; next_id := next_id st; db_users := db_users st;
     db_messages := db_messages st |}.
Definition set_console (v : _) (st : State) : State :=
  {| currentUser := currentUser st; messagesRef := messagesRef st;
     mediaStream := mediaStream st; peer := peer st; peerId := peerId st; call := call st;
     isOnline := isOnline st; CALL_EVENTLISTERS := CALL_EVENTLISTERS st;
     messageList := messageList st; userList := userList st; messageInput := messageInput st;
     submitDisabled := submitDisabled st; mediaCapture := mediaCapture st;
     snackbar := snackbar st; chrome := chrome st; myVideo := myVideo st;
     peerVideo := peerVideo st; timers := timers st; console := v;
     firebase_log := firebase_log st; broker_log := broker_log st;
     media_requests := media_requests st; call_on := call_on st; msg_subs := msg_subs st;
     user_subs := user_subs st; next_id := next_id st; db_users := db_users st;
     db_messages := db_messages st |}.
Definition set_firebase_log (v : _) (st : State) : State :=
  {| currentUser := currentUser st; messagesRef := messagesRef st;
     mediaStream := mediaStream st; peer := peer st; peerId := peerId st; call := call st;
     isOnline := isOnline st; CALL_EVENTLISTERS := CALL_EVENTLISTERS st;
     messageList := messageList st; userList := userList st; messageInput := messageInput st;
     submitDisabled := submitDisabled st; mediaCapture := mediaCapture st;
     snackbar := snackbar st; chrome := chrome st; myVideo := myVideo st;
     peerVideo := peerVideo st; timers := timers st; console := console st; firebase_log := v;
     broker_log := broker_log st; media_requests := media_requests st; call_on := call_on st;
     msg_subs := msg_subs st; user_subs := user_subs st; next_id := next_id st;
     db_users := db_users st; db_messages := db_messages st |}.
Definition set_broker_log (v : _) (st : State) : State :=
  {| currentUser := currentUser st; messagesRef := messagesRef st;
     mediaStream := mediaStream st; peer := peer st; peerId := peerId st; call := call st;
     isOnline := isOnline st; CALL_EVENTLISTERS := CALL_EVENTLISTERS st;
     messageList := messageList st; userList := userList st; messageInput := messageInput st;
     submitDisabled := submitDisabled st; mediaCapture := mediaCapture st;
     snackbar := snackbar st; chrome := chrome st; myVideo := myVideo st;
     peerVideo := peerVideo st; timers := timers st; console := console st;
     firebase_log := firebase_log st; broker_log := v; media_requests := media_requests st;
     call_on := call_on st; msg_subs := msg_subs st; user_subs := user_subs st;
     next_id := next_id st; db_users := db_users st; db_messages := db_messages st |}.
Definition set_media_requests (v : _) (st : State) : State :=
  {| currentUser := currentUser st; messagesRef := messagesRef st;
     mediaStream := mediaStream st; peer := peer st; peerId := peerId st; call := call st;
     isOnline := isOnline st; CALL_EVENTLISTERS := CALL_EVENTLISTERS st;
     messageList := messageList st; userList := userList st; messageInput := messageInput st;
     submitDisabled := submitDisabled st; mediaCapture := mediaCapture st;
     snackbar := snackbar st; chrome := chrome st; myVideo := myVideo st;
     peerVideo := peerVideo st; timers := timers st; console := console st;
     firebase_log := firebase_log st; broker_log := broker_log st; media_requests := v;
     call_on := call_on st; msg_subs := msg_subs st; user_subs := user_subs st;
     next_id := next_id st; db_users := db_users st; db_messages := db_messages st |}.
Definition set_call_on (v : _) (st : State) : State :=
  {| currentUser := currentUser st; messagesRef := messagesRef st;
     mediaStream := mediaStream st; peer := peer st; peerId := peerId st; call := call st;
     isOnline := isOnline st; CALL_EVENTLISTERS := CALL_EVENTLISTERS st;
     messageList := messageList st; userList := userList st; messageInput := messageInput st;
     submitDisabled := submitDisabled st; mediaCapture := mediaCapture st;
     snackbar := snackbar st; chrome := chrome st; myVideo := myVideo st;
     peerVideo := peerVideo st; timers := timers st; console := console st;
     firebase_log := firebase_log st; broker_log := broker_log st;
     media_requests := media_requests st; call_on := v; msg_subs := msg_subs st;
     user_subs := user_subs st; next_id := next_id st; db_users := db_users st;
     db_messages := db_messages st |}.
Definition set_msg_subs (v : _) (st : State) : State :=
  {| currentUser := currentUser st; messagesRef := messagesRef st;
     mediaStream := mediaStream st; peer := peer st; peerId := peerId st; call := call st;
     isOnline := isOnline st; CALL_EVENTLISTERS := CALL_EVENTLISTERS st;
     messageList := messageList st; userList := userList st; messageInput := messageInput st;
     submitDisabled := submitDisabled st; mediaCapture := mediaCapture st;
     snackbar := snackbar st; chrome := chrome st; myVideo := myVideo st;
     peerVideo := peerVideo st; timers := timers st; console := console st;
     firebase_log := firebase_log st; broker_log := broker_log st;
     media_requests := media_requests st; call_on := call_on st; msg_subs := v;
     user_subs := user_subs st; next_id := next_id st; db_users := db_users st;
     db_messages := db_messages st |}.
Definition set_user_subs (v : _) (st : State) : State :=
  {| currentUser := currentUser st; messagesRef := messagesRef st;
     mediaStream := mediaStream st; peer := peer st; peerId := peerId st; call := call st;
     isOnline := isOnline st; CALL_EVENTLISTERS := CALL_EVENTLISTERS st;
     messageList := messageList st; userList := userList st; messageInput := messageInput st;
     submitDisabled := submitDisabled st; mediaCapture := mediaCapture st;
     snackbar := snackbar st; chrome := chrome st; myVideo := myVideo st;
     peerVideo := peerVideo st; timers := timers st; console := console st;
     firebase_log := firebase_log st; broker_log := broker_log st;
     media_requests := media_requests st; call_on := call_on st; msg_subs := msg_subs st;
     user_subs := v; next_id := next_id st; db_users := db_users st;
     db_messages := db_messages st |}.
Definition set_next_id (v : _) (st : State) : State :=
  {| currentUser := currentUser st; messagesRef := messagesRef st;
     mediaStream := mediaStream st; peer := peer st; peerId := peerId st; call := call st;
     isOnline := isOnline st; CALL_EVENTLISTERS := CALL_EVENTLISTERS st;
     messageList := messageList st; userList := userList st; messageInput := messageInput st;
     submitDisabled := submitDisabled st; mediaCapture := mediaCapture st;
     snackbar := snackbar st; chrome := chrome st; myVideo := myVideo st;
     peerVideo := peerVideo st; timers := timers st; console := console st;
     firebase_log := firebase_log st; broker_log := broker_log st;
     media_requests := media_requests st; call_on := call_on st; msg_subs := msg_subs st;
     user_subs := user_subs st; next_id := v; db_users := db_users st;
     db_messages := db_messages st |}.
Definition set_db_users (v : _) (st : State) : State :=
  {| currentUser := currentUser st; messagesRef := messagesRef st;
     mediaStream := mediaStream st; peer := peer st; peerId := peerId st; call := call st;
     isOnline := isOnline st; CALL_EVENTLISTERS := CALL_EVENTLISTERS st;
     messageList := messageList st; userList := userList st; messageInput := messageInput st;
     submitDisabled := submitDisabled st; mediaCapture := mediaCapture st;
     snackbar := snackbar st; chrome := chrome st; myVideo := myVideo st;
     peerVideo := peerVideo st; timers := timers st; console := console st;
     firebase_log := firebase_log st; broker_log := broker_log st;
     media_requests := media_requests st; call_on := call_on st; msg_subs := msg_subs st;
     user_subs := user_subs st; next_id := next_id st; db_users := v;
     db_messages := db_messages st |}.
Definition set_db_messages (v : _) (st : State) : State :=
  {| currentUser := currentUser st; messagesRef := messagesRef st;
     mediaStream := mediaStream st; peer := peer st; peerId := peerId st; call := call st;
     isOnline := isOnline st; CALL_EVENTLISTERS := CALL_EVENTLISTERS st;
     messageList := messageList st; userList := userList st; messageInput := messageInput st;
     submitDisabled := submitDisabled st; mediaCapture := mediaCapture st;
     snackbar := snackbar st; chrome := chrome st; myVideo := myVideo st;
     peerVideo := peerVideo st; timers := timers st; console := console st;
     firebase_log := firebase_log st; broker_log := broker_log st;
     media_requests := media_requests st; call_on := call_on st; msg_subs := msg_subs st;
     user_subs := user_subs st; next_id := next_id st; db_users := db_users st;
     db_messages := v |}.

(** The page after [new FriendlyChat()]: nothing rendered, nobody signed in,
    the auth and connection observers registered. *)
Definition init : State :=
  {| currentUser := None; messagesRef := false; mediaStream := None; peer := None;
     peerId := None; call := None; isOnline := None; CALL_EVENTLISTERS := ∅;
     messageList := []; userList := []; messageInput := ""; submitDisabled := true;
     mediaCapture := []; snackbar := [];
     chrome := {| userPic := None; userName := ""; profileHidden := true;
                  signInHidden := false |};
     myVideo := None; peerVideo := None; timers := []; console := []; firebase_log := [];
     broker_log := []; media_requests := []; call_on := []; msg_subs := [];
     user_subs := []; next_id := 0; db_users := ∅; db_messages := [] |}.

(** ** Methods as state transformers that may raise *)

Inductive Res (A : Type) :=
| Ok (a : A) (st : State)
| Throw (st : State).
Arguments Ok {A} a st.
Arguments Throw {A} st.

Definition M (A : Type) : Type := State → Res A.

Definition ret {A} (a : A) : M A := λ st, Ok a st.
Definition bind {A B} (m : M A) (k : A → M B) : M B :=
  λ st, match m st with
        | Ok a st' => k a st'
        | Throw st' => Throw st'
        end.
(** Dereferencing [null] or [undefined]. *)
Definition throw {A} : M A := λ st, Throw st.
Definition gets {A} (f : State → A) : M A := λ st, Ok (f st) st.
Definition modify (f : State → State) : M unit := λ st, Ok tt (f st).
Definition when (b : bool) (m : M unit) : M unit := if b then m else ret tt.

Notation "'let*' x ':=' m 'in' k" := (bind m (λ x, k))
  (at level 10, x binder, m at level 100, k at level 200).
Notation "m >> k" := (bind m (λ _, k)) (at level 100, k at level 200, right associativity).

(** The state a call leaves behind, raised or not. *)
Definition settle {A} (r : Res A) : State :=
  match r with
  | Ok _ st => st
  | Throw st => st
  end.

(** A callback run by a service or by the browser: a raise ends that
    callback and nothing else. *)
Definition guarded {A} (m : M A) : State → State := λ st, settle (m st).

Definition fresh : M nat :=
  let* n := gets next_id in
  modify (set_next_id (S n)) >> ret n.

Definition showSnackbar (n : Notification) : M unit :=
  modify (λ st, set_snackbar (snackbar st ++ [n]) st).
Definition console_error (e : ConsoleMsg) : M unit :=
  modify (λ st, set_console (console st ++ [e]) st).
Definition firebase (c : FirebaseCmd) : M unit :=
  modify (λ st, set_firebase_log (firebase_log st ++ [c]) st).
Definition broker (c : BrokerCmd) : M unit :=
  modify (λ st, set_broker_log (broker_log st ++ [c]) st).
(** [setTimeout(function() {div.classList.add('visible')}, 1)] *)
Definition setTimeout_visible (id : string) : M unit :=
  modify (λ st, set_timers (timers st ++ [id]) st).

Definition notice (msg : string) : Notification :=
  {| n_message := msg; n_timeout := 2000%N; n_action := None; n_actionText := None |}.

(** *** Signing in and out *)

Definition signIn : M unit := firebase SignInWithPopup.
Definition signOut : M unit := firebase SignOut.

Definition checkSignedInWithMessage : M bool :=
  let* u := gets currentUser in
  match u with
  | Some _ => ret true
  | None => showSnackbar (notice "You must sign-in first") >> ret false
  end.

(** *** The message form *)

Definition toggleButton : M unit :=
  let* v := gets messageInput in
  if decide (v = "") then modify (set_submitDisabled true)
  else modify (set_submitDisabled false).

Definition resetMaterialTextfield : M unit := modify (set_messageInput "").

Definition saveMessage : M unit :=
  let* v := gets messageInput in
  if decide (v = "") then ret tt
  else
    let* signedIn := checkSignedInWithMessage in
    if signedIn then
      let* u := gets currentUser in
      let* ref := gets messagesRef in
      match u, ref with
      | Some u, true =>
          firebase (Push {| mr_name := displayName u; mr_text := Some v;
                            mr_photoUrl := Some (or_default (photoURL u) PROFILE_PLACEHOLDER);
                            mr_imageUrl := None |}
                         ThenResetInput)
      | _, _ => throw
      end
    else ret tt.

Definition saveImageMessage : M unit :=
  let* files := gets mediaCapture in
  modify (set_mediaCapture []) >>
  match files !! 0 with
  | None => throw
  | Some file =>
      if negb (occurs "image" (f_type file)) then
        showSnackbar (notice "You can only share images")
      else
        let* signedIn := checkSignedInWithMessage in
        if signedIn then
          let* u := gets currentUser in
          let* ref := gets messagesRef in
          match u, ref with
          | Some u, true =>
              firebase (Push {| mr_name := displayName u; mr_text := None;
                                mr_photoUrl :=
                                  Some (or_default (photoURL u) PROFILE_PLACEHOLDER);
                                mr_imageUrl := Some LOADING_IMAGE_URL |}
                             (ThenUpload u file))
          | _, _ => throw
          end
        else ret tt
  end.

(** *** The document *)

Definition MESSAGE_TEMPLATE (key : string) : MessageDiv :=
  {| md_id := key; md_pic := None; md_name := ""; md_body := BodyEmpty |}.

Definition USER_TEMPLATE (id : string) : UserDiv :=
  {| ud_id := id; ud_pic := None; ud_name := "";
     ud_phone := Some {| ph_id := None; ph_icon := ""; ph_click := [] |} |}.

Definition css_url (u : string) : string := "url(" +:+ u +:+ ")".

Definition set_md_pic (v : jsstring) (d : MessageDiv) : MessageDiv :=
  {| md_id := md_id d; md_pic := v; md_name := md_name d; md_body := md_body d |}.
Definition set_md_name (v : string) (d : MessageDiv) : MessageDiv :=
  {| md_id := md_id d; md_pic := md_pic d; md_name := v; md_body := md_body d |}.
Definition set_md_body (v : MessageBody) (d : MessageDiv) : MessageDiv :=
  {| md_id := md_id d; md_pic := md_pic d; md_name := md_name d; md_body := v |}.

Definition set_ud_pic (v : jsstring) (d : UserDiv) : UserDiv :=
  {| ud_id := ud_id d; ud_pic := v; ud_name := ud_name d; ud_phone := ud_phone d |}.
Definition set_ud_name (v : string) (d : UserDiv) : UserDiv :=
  {| ud_id := ud_id d; ud_pic := ud_pic d; ud_name := v; ud_phone := ud_phone d |}.
Definition set_ud_phone (v : option PhoneBtn) (d : UserDiv) : UserDiv :=
  {| ud_id := ud_id d; ud_pic := ud_pic d; ud_name := ud_name d; ud_phone := v |}.
Definition alter_phone (f : PhoneBtn → PhoneBtn) (d : UserDiv) : UserDiv :=
  set_ud_phone (f <$> ud_phone d) d.

Definition set_ph_id (v : jsstring) (b : PhoneBtn) : PhoneBtn :=
  {| ph_id := v; ph_icon := ph_icon b; ph_click := ph_click b |}.
Definition set_ph_icon (v : string) (b : PhoneBtn) : PhoneBtn :=
  {| ph_id := ph_id b; ph_icon := v; ph_click := ph_click b |}.
Definition set_ph_click (v : list Listener) (b : PhoneBtn) : PhoneBtn :=
  {| ph_id := ph_id b; ph_icon := ph_icon b; ph_click := v |}.

Definition addEventListener (l : Listener) (b : PhoneBtn) : PhoneBtn :=
  set_ph_click (ph_click b ++ [l]) b.
Definition removeEventListener (l : Listener) (b : PhoneBtn) : PhoneBtn :=
  set_ph_click (filter (λ l', l_no l' ≠ l_no l) (ph_click b)) b.

Definition alter_message (i : nat) (f : MessageDiv → MessageDiv) : M unit :=
  modify (λ st, set_messageList (alter f i (messageList st)) st).
Definition alter_user (i : nat) (f : UserDiv → UserDiv) : M unit :=
  modify (λ st, set_userList (alter f i (userList st)) st).

(** The elements of the page's own markup that the script looks up, other
    than the two lists. *)
Definition page_ids : list string :=
  ["message-form"; "message"; "submit"; "submitImage"; "image-form"; "mediaCapture";
   "user-pic"; "user-name"; "sign-in"; "sign-out"; "must-signin-snackbar"; "myVideo";
   "peerVideo"].

(** An element that carries an id: one of the page's own, an entry of the
    feed (its id is the key of the message), an entry of the roster (its id
    is the uid) or the phone button of one (its id is a peer identifier). *)
Inductive Element :=
| Own (id : string)
| MessageEntry (i : nat)
| UserEntry (i : nat)
| PhoneOf (i : nat).

(** The first entry of the feed with this id. *)
Definition in_feed (id : string) (l : list MessageDiv) : option Element :=
  (λ ix : nat * MessageDiv, MessageEntry ix.1) <$> list_find (λ d, md_id d = id) l.

(** The first element of the roster with this id, counting from [i]: an entry
    comes before its own button, and both before the next entry. *)
Fixpoint in_roster (id : string) (l : list UserDiv) (i : nat) : option Element :=
  match l with
  | [] => None
  | d :: l' =>
      if decide (ud_id d = id) then Some (UserEntry i)
      else if decide (ud_phone d ≫= ph_id = Some id) then Some (PhoneOf i)
      else in_roster id l' (S i)
  end.

(** [document.getElementById(id)]: the first element of the document with
    this id, in the order of the document: the page's own elements,
    [#messages] and the entries of the feed, [#users] and the elements of the
    roster.  The empty string is the id of no element. *)
Definition getElementById (id : string) (st : State) : option Element :=
  if decide (id = "") then None
  else if decide (id ∈ page_ids) then Some (Own id)
  else if decide (id = "messages") then Some (Own id)
  else match in_feed id (messageList st) with
       | Some e => Some e
       | None =>
           if decide (id = "users") then Some (Own id)
           else in_roster id (userList st) 0
       end.

(** A [.pic] or [.name] element: every entry of the feed and of the roster
    has one of each. *)
Inductive Part :=
| OfMessage (i : nat)
| OfUser (i : nat).

(** [e.querySelector('.pic')] and [e.querySelector('.name')], the first one
    inside [e]: an entry holds its own, a list that of its first entry, a
    phone button and the other elements of the page none. *)
Definition query_part (e : Element) (st : State) : option Part :=
  match e with
  | MessageEntry i => Some (OfMessage i)
  | UserEntry i => Some (OfUser i)
  | PhoneOf _ => None
  | Own id =>
      if decide (id = "messages") then
        match messageList st with
        | [] => None
        | _ :: _ => Some (OfMessage 0)
        end
      else if decide (id = "users") then
        match userList st with
        | [] => None
        | _ :: _ => Some (OfUser 0)
        end
      else None
  end.

(** [e.querySelector('.message')]: only the entries of the feed have one. *)
Definition query_message (e : Element) (st : State) : option nat :=
  match e with
  | MessageEntry i => Some i
  | Own id =>
      if decide (id = "messages") then
        match messageList st with
        | [] => None
        | _ :: _ => Some 0
        end
      else None
  | _ => None
  end.

(** [e.querySelector('.phone')], as the entry of the roster whose button it
    is: an entry has one until it is removed, and the roster holds that of
    the first entry that has one. *)
Definition query_phone (e : Element) (st : State) : option nat :=
  match e with
  | UserEntry i => if userList st !! i ≫= ud_phone is Some _ then Some i else None
  | Own id =>
      if decide (id = "users")
      then fst <$> list_find (λ d, is_Some (ud_phone d)) (userList st)
      else None
  | _ => None
  end.

(** [pic.style.backgroundImage = v] and [name.textContent = v] *)
Definition set_pic (p : Part) (v : jsstring) : M unit :=
  match p with
  | OfMessage i => alter_message i (set_md_pic v)
  | OfUser i => alter_user i (set_ud_pic v)
  end.
Definition set_name (p : Part) (v : string) : M unit :=
  match p with
  | OfMessage i => alter_message i (set_md_name v)
  | OfUser i => alter_user i (set_ud_name v)
  end.

(** [div.querySelector('.pic').style.backgroundImage = 'url(' + picUrl + ')'] *)
Definition write_pic (div : Element) (picUrl : jsstring) : M unit :=
  let* pic := gets (query_part div) in
  match pic with
  | Some p => set_pic p (css_url <$> picUrl)
  | None => throw
  end.

(** [div.querySelector('.name').textContent = name] *)
Definition write_name (div : Element) (name : string) : M unit :=
  let* el := gets (query_part div) in
  match el with
  | Some p => set_name p name
  | None => throw
  end.

(** *** The message feed *)

Definition setImageUrl (imageUri : string) (imgElement : Img) : M Img :=
  let img := {| img_no := img_no imgElement; img_src := imageUri |} in
  if startsWith "gs://" imageUri then
    let img := {| img_no := img_no img; img_src := LOADING_IMAGE_URL |} in
    firebase (GetMetadata imageUri (img_no img)) >> ret img
  else
    ret {| img_no := img_no img; img_src := imageUri |}.

(** A write to the content of [messageElement], which may be [null]. *)
Definition write_body (messageElement : option nat) (v : MessageBody) : M unit :=
  match messageElement with
  | Some i => alter_message i (set_md_body v)
  | None => throw
  end.

Definition displayMessage (key name : string) (text picUrl imageUri : jsstring) : M unit :=
  let* found := gets (getElementById key) in
  let* div :=
    match found with
    | Some e => ret e
    | None =>
        let* i := gets (λ st, length (messageList st)) in
        modify (λ st, set_messageList (messageList st ++ [MESSAGE_TEMPLATE key]) st) >>
        ret (MessageEntry i)
    end in
  when (truthy picUrl) (write_pic div picUrl) >>
  write_name div name >>
  let* messageElement := gets (query_message div) in
  (if truthy text then
     write_body messageElement (BodyHtml (replace_newlines (escapeHTML (default "" text))))
   else if truthy imageUri then
     let* n := fresh in
     let* image := setImageUrl (default "" imageUri) {| img_no := n; img_src := "" |} in
     write_body messageElement (BodyImg image)
   else ret tt) >>
  setTimeout_visible key.

Definition setMessage (key : string) (val : MessageRecord) : M unit :=
  displayMessage key (mr_name val) (mr_text val) (mr_photoUrl val) (mr_imageUrl val).

(** The last [n] children of a collection. *)
Definition limitToLast {A} (n : nat) (l : list A) : list A := drop (length l - n) l.

(** [cb] run once per child, in order. *)
Definition deliver_all {A} (cb : string → A → M unit) (children : list (string * A))
  : State → State :=
  λ st, foldl (λ st kv, guarded (cb kv.1 kv.2) st) st children.

(** Registering [cb] for [child_added] delivers the children already there. *)
Definition replay {A} (cb : string → A → M unit) (children : list (string * A)) : M unit :=
  modify (deliver_all cb children).

Definition loadMessages : M unit :=
  modify (set_messagesRef true) >>
  modify (set_msg_subs []) >>
  modify (λ st, set_msg_subs (msg_subs st ++ [(12, child_added)]) st) >>
  (let* db := gets db_messages in replay setMessage (limitToLast 12 db)) >>
  modify (λ st, set_msg_subs (msg_subs st ++ [(12, child_changed)]) st).

(** *** Presence *)

Definition saveUser : M unit :=
  let* signedIn := checkSignedInWithMessage in
  if signedIn then
    let* u := gets currentUser in
    let* pid := gets peerId in
    match u with
    | Some u =>
        firebase (OnDisconnectRemove (uid u)) >>
        firebase (SetUser (uid u)
                    {| ur_name := displayName u; ur_email := email u;
                       ur_photoUrl := Some (or_default (photoURL u) PROFILE_PLACEHOLDER);
                       ur_peerId := if truthy pid then pid else None |})
    | None => throw
    end
  else ret tt.

(** *** The roster *)

Definition is_uid (me : option AuthUser) (id : string) : bool :=
  match me with
  | Some u => bool_decide (uid u = id)
  | None => false
  end.
Definition is_other (me : option AuthUser) (id : string) : bool :=
  match me with
  | Some u => bool_decide (uid u ≠ id)
  | None => false
  end.

Definition displayUser (id name : string) (picUrl pid : jsstring) : M unit :=
  let* found := gets (getElementById id) in
  let* div :=
    match found with
    | Some e => ret e
    | None =>
        let* i := gets (λ st, length (userList st)) in
        modify (λ st, set_userList (userList st ++ [USER_TEMPLATE id]) st) >>
        ret (UserEntry i)
    end in
  when (truthy picUrl) (write_pic div picUrl) >>
  write_name div name >>
  let* me := gets currentUser in
  let* phoneBtn := gets (query_phone div) in
  when (is_uid me id && bool_decide (is_Some phoneBtn))
       (match phoneBtn with
        | Some i => alter_user i (set_ud_phone None)
        | None => ret tt
        end) >>
  when (is_other me id && truthy pid)
       (match phoneBtn with
        | None => throw
        | Some i =>
            alter_user i (alter_phone (set_ph_id pid)) >>
            let* old := gets (λ st, CALL_EVENTLISTERS st !! id) in
            match old with
            | Some l => alter_user i (alter_phone (removeEventListener l))
            | None => ret tt
            end >>
            let* pr := gets peer in
            match pr with
            | None => throw
            | Some pr =>
                let* n := fresh in
                let connected := bool_decide (default "" pid ∈ connections pr) in
                let l := {| l_no := n;
                            l_action := if connected then ActEndCall
                                        else ActCallToUser (default "" pid) |} in
                alter_user i (alter_phone
                                (set_ph_icon (if connected then "call_end" else "call"))) >>
                modify (λ st, set_CALL_EVENTLISTERS (<[id := l]> (CALL_EVENTLISTERS st)) st) >>
                alter_user i (alter_phone (addEventListener l))
            end
        end) >>
  setTimeout_visible id.

Definition setUser (key : string) (val : UserRecord) : M unit :=
  displayUser key (ur_name val) (ur_photoUrl val) (ur_peerId val).

Definition clearUsers : M unit := modify (set_userList []).

(** The order in which the store keeps and hands out the children of a
    collection: by key. *)
Definition key_le {A} (x y : string * A) : Prop := String.leb x.1 y.1 = true.

#[global] Instance key_le_dec {A} (x y : string * A) : Decision (key_le x y).
Proof. unfold key_le. apply _. Defined.

Definition children_by_key {A} (db : gmap string A) : list (string * A) :=
  merge_sort key_le (map_to_list db).

Definition loadUsers : M unit :=
  modify (set_user_subs []) >>
  modify (λ st, set_user_subs (user_subs st ++ [child_added]) st) >>
  (let* db := gets db_users in replay setUser (children_by_key db)) >>
  modify (λ st, set_user_subs (user_subs st ++ [child_changed]) st) >>
  modify (λ st, set_user_subs (user_subs st ++ [child_removed]) st).

Definition reloadUsers : M unit := clearUsers >> loadUsers.

Definition unsetUser : M unit := reloadUsers.

(** *** Media and the broker *)

Definition initMeidaStream (cb : MediaCallback) : M unit :=
  modify (λ st, set_media_requests (media_requests st ++ [(cb, Pending)]) st).

Definition initPeerJs : M unit :=
  let* signedIn := checkSignedInWithMessage in
  if signedIn then
    let* n := fresh in
    broker (NewPeer n) >>
    modify (set_peer (Some {| peer_no := n; connections := ∅ |}))
  else ret tt.

Definition endPeerJs : M unit :=
  let* pr := gets peer in
  match pr with
  | Some pr => broker (Destroy (peer_no pr)) >> modify (set_peer None)
  | None => ret tt
  end.

(** *** Calls *)

Definition call_subscribe (c : nat) (e : CallEvent) (h : CallHandler) : M unit :=
  modify (λ st, set_call_on (call_on st ++ [(c, e, h)]) st).

Definition endCall : M unit :=
  let* c := gets call in
  match c with
  | Some c =>
      broker (CloseCall (c_no c)) >>
      modify (set_call None) >>
      reloadUsers
  | None => ret tt
  end.

(** [this.peer.call(peerId, this.mediaStream)]: the library makes a media
    connection and files it in the peer's table under the remote id. *)
Definition peer_call (remote : jsstring) : M Call :=
  let* pr := gets peer in
  match pr with
  | None => throw
  | Some pr =>
      let* s := gets mediaStream in
      let* n := fresh in
      broker (PlaceCall remote s n) >>
      modify (set_peer (Some {| peer_no := peer_no pr;
                                connections := match remote with
                                               | Some r => {[r]} ∪ connections pr
                                               | None => connections pr
                                               end |})) >>
      ret {| c_no := n; c_peer := remote |}
  end.

(** [if (!this.peer) { this.initPeerJs(); }] *)
Definition ensurePeer : M unit :=
  let* pr := gets peer in when (negb (bool_decide (is_Some pr))) initPeerJs.

(** [if (this.call) { this.endCall(); }] *)
Definition dropCall : M unit :=
  let* c := gets call in when (bool_decide (is_Some c)) endCall.

Definition callToUser (pid : jsstring) : M unit :=
  let* s := gets mediaStream in
  match s with
  | None => initMeidaStream CbCallToUser
  | Some _ =>
      ensurePeer >>
      dropCall >>
      let* c := peer_call pid in
      modify (set_call (Some c)) >>
      call_subscribe (c_no c) on_close HEndCall >>
      call_subscribe (c_no c) on_error HLogEndCall >>
      reloadUsers
  end.

(** The first [.name] element of the feed and of the roster. *)
Definition first_message_name (st : State) : option string := md_name <$> messageList st !! 0.
Definition first_user_name (st : State) : option string := ud_name <$> userList st !! 0.

Definition getUserByPeerId (pid : string) : M UserInfo :=
  let* div := gets (getElementById pid) in
  let* parent :=
    match div with
    | None => throw
    | Some (PhoneOf i) =>
        (* the parent of a.phone is the entry *)
        gets (λ st, (λ d, (Some (ud_id d), Some (ud_name d))) <$> userList st !! i)
    | Some (UserEntry _) =>
        (* the parent of an entry is the list: its id, and the first .name in it *)
        gets (λ st, Some (Some "users", first_user_name st))
    | Some (MessageEntry _) =>
        gets (λ st, Some (Some "messages", first_message_name st))
    | Some (Own _) =>
        (* the parent is the body: no id, and the first .name of the document *)
        gets (λ st, Some (None, if first_message_name st is Some n then Some n
                                else first_user_name st))
    end in
  match parent with
  | Some (uid, Some name) => ret {| ui_uid := uid; ui_name := name; ui_peerId := pid |}
  | _ => throw
  end.

Definition reciveCall (c : Call) : M unit :=
  let* user := getUserByPeerId (default "undefined" (c_peer c)) in
  showSnackbar {| n_message := "Calling From " +:+ ui_name user; n_timeout := 6000%N;
                  n_action := Some (user, c); n_actionText := Some "Answer" |}.

Definition answerCall (user : UserInfo) (c : Call) : M unit :=
  dropCall >>
  modify (set_call (Some c)) >>
  (let* s := gets mediaStream in broker (Answer (c_no c) s)) >>
  call_subscribe (c_no c) on_stream HPeerVideo >>
  call_subscribe (c_no c) on_error HLogEndCall >>
  reloadUsers.

(** *** Connection and authentication observers *)

Definition onOnlineState (v : bool) : M unit :=
  let* was := gets isOnline in
  (if v && negb (default false was) then
     showSnackbar (notice "connected") >> initPeerJs >> saveUser
   else if negb v && default false was then
     showSnackbar (notice "disconnected") >> endPeerJs >> clearUsers
   else ret tt) >>
  modify (set_isOnline (Some v)).

Definition onAuthStateChanged (user : option AuthUser) : M unit :=
  match user with
  | Some u =>
      modify (set_chrome
                {| userPic := Some (css_url (or_default (photoURL u) PROFILE_PLACEHOLDER));
                   userName := displayName u; profileHidden := false;
                   signInHidden := true |}) >>
      loadMessages >>
      initMeidaStream CbSignedIn
  | None =>
      modify (λ st, set_chrome
                {| userPic := userPic (chrome st); userName := userName (chrome st);
                   profileHidden := true; signInHidden := false |} st) >>
      endPeerJs >>
      clearUsers
  end.

(** ** Events *)

(** What reaches the page from outside: the person using it, and the
    completions and notifications of the services. *)
Inductive Event :=
(* the person at the page *)
| EvInput (s : string)                  (* edits the message field *)
| EvSubmit                              (* submits the message form *)
| EvPickFiles (fs : list File)          (* chooses files in the picker *)
| EvClickSignIn
| EvClickSignOut
| EvClickPhone (i : nat)                (* clicks the button of the i-th roster entry *)
| EvClickAction (i : nat)               (* clicks the action of the i-th notification *)
(* authentication *)
| EvAuthStateChanged (u : option AuthUser)
(* the realtime store *)
| EvOnline (b : bool)
| EvMessageAdded (key : string) (val : MessageRecord)
| EvMessageChanged (key : string) (val : MessageRecord)
| EvUserAdded (key : string) (val : UserRecord)
| EvUserChanged (key : string) (val : UserRecord)
| EvUserRemoved (key : string)
| EvPushResolved (i : nat) (key : string) (now : string)
| EvPushRejected (i : nat)
| EvUploadComplete (i : nat) (uri : string)
| EvUploadError (i : nat)
| EvMetadata (i : nat) (url : string)
(* the media devices *)
| EvMediaGranted (i : nat) (s : Stream)
| EvMediaDenied (i : nat)
(* the broker *)
| EvPeerOpen (id : string)
| EvPeerCall (remote : string)
| EvPeerClose
| EvPeerError
| EvPeerConnections (table : gset string)
| EvCallSignal (c : nat) (e : CallEvent) (s : Stream).

(** Upsert of a child, keeping the place of a child that is there. *)
Fixpoint upsert {A} (k : string) (v : A) (l : list (string * A)) : list (string * A) :=
  match l with
  | [] => [(k, v)]
  | (k', v') :: l' => if decide (k' = k) then (k, v) :: l' else (k', v') :: upsert k v l'
  end.

(** The children of [/messages] a subscription with limit [n] looks at. *)
Definition in_window (n : nat) (key : string) (db : list (string * MessageRecord)) : bool :=
  bool_decide (key ∈ (limitToLast n db).*1).

(** A message event reaches [setMessage] once per matching subscription. *)
Definition deliver_message (e : ChildEvent) (key : string) (val : MessageRecord)
  : State → State :=
  λ st, foldl (λ st sub, if bool_decide (sub.2 = e) && in_window sub.1 key (db_messages st)
                         then guarded (setMessage key val) st else st)
              st (msg_subs st).

Definition deliver_user (e : ChildEvent) (m : M unit) : State → State :=
  λ st, if bool_decide (e ∈ user_subs st) then guarded m st else st.

Definition run_listener (l : Listener) : State → State :=
  match l_action l with
  | ActEndCall => guarded endCall
  | ActCallToUser p => guarded (callToUser (Some p))
  end.

Definition run_call_handler (h : CallHandler) (s : Stream) : State → State :=
  match h with
  | HEndCall => guarded endCall
  | HLogEndCall => guarded (console_error ErrCall >> endCall)
  | HPeerVideo => set_peerVideo (Some s)
  end.

(** The success and error callbacks of [initMeidaStream]. *)
Definition media_granted (cb : MediaCallback) (s : Stream) : M unit :=
  modify (set_mediaStream (Some s)) >>
  modify (set_myVideo (Some s)) >>
  match cb with
  | CbSignedIn => initPeerJs >> saveUser >> loadUsers
  | CbCallToUser => callToUser None
  end.
Definition media_denied : M unit := console_error ErrMedia.

(** The continuations of the two [push] calls, and of the upload. *)
Definition push_resolved (k : PushThen) (key now : string) : M unit :=
  match k with
  | ThenResetInput => resetMaterialTextfield >> toggleButton
  | ThenUpload u f => firebase (Put (uid u +:+ "/" +:+ now +:+ "/" +:+ f_name f) f key)
  end.

Definition is_NewPeer (c : BrokerCmd) : bool :=
  match c with
  | NewPeer _ => true
  | _ => false
  end.
(** Some [Peer] object exists, so its four handlers are registered. *)
Definition peer_created (st : State) : bool := existsb is_NewPeer (broker_log st).

(** The library files an incoming media connection under the caller's id
    before it emits [call]. *)
Definition incoming (remote : string) (st : State) : State :=
  match peer st with
  | Some pr =>
      set_peer (Some {| peer_no := peer_no pr; connections := {[remote]} ∪ connections pr |}) st
  | None => st
  end.

(** The [then] of [getMetadata]: the image element the request was made for
    gets the resolved URL, wherever it is in the feed. *)
Definition set_img_src (i : nat) (url : string) (d : MessageDiv) : MessageDiv :=
  match md_body d with
  | BodyImg img =>
      if decide (img_no img = i) then set_md_body (BodyImg {| img_no := i; img_src := url |}) d
      else d
  | _ => d
  end.

Definition step (e : Event) (st : State) : State :=
  match e with
  | EvInput s => guarded toggleButton (set_messageInput s st)
  | EvSubmit => guarded saveMessage st
  | EvPickFiles fs => guarded saveImageMessage (set_mediaCapture fs st)
  | EvClickSignIn => guarded signIn st
  | EvClickSignOut => guarded signOut st
  | EvClickPhone i =>
      match userList st !! i ≫= ud_phone with
      | Some b => foldl (λ st l, run_listener l st) st (ph_click b)
      | None => st
      end
  | EvClickAction i =>
      match snackbar st !! i ≫= n_action with
      | Some (user, c) => guarded (answerCall user c) st
      | None => st
      end
  | EvAuthStateChanged u =>
      (* [auth.currentUser] is [u] by the time the observer runs *)
      guarded (onAuthStateChanged u) (set_currentUser u st)
  | EvOnline b => guarded (onOnlineState b) st
  | EvMessageAdded key val =>
      deliver_message child_added key val (set_db_messages (upsert key val (db_messages st)) st)
  | EvMessageChanged key val =>
      deliver_message child_changed key val
        (set_db_messages (upsert key val (db_messages st)) st)
  | EvUserAdded key val =>
      deliver_user child_added (setUser key val) (set_db_users (<[key := val]> (db_users st)) st)
  | EvUserChanged key val =>
      deliver_user child_changed (setUser key val)
        (set_db_users (<[key := val]> (db_users st)) st)
  | EvUserRemoved key =>
      deliver_user child_removed unsetUser (set_db_users (delete key (db_users st)) st)
  | EvPushResolved i key now =>
      match firebase_log st !! i with
      | Some (Push _ k) => guarded (push_resolved k key now) st
      | _ => st
      end
  | EvPushRejected i =>
      match firebase_log st !! i with
      | Some (Push _ ThenResetInput) => guarded (console_error ErrWrite) st
      | _ => st
      end
  | EvUploadComplete i uri =>
      match firebase_log st !! i with
      | Some (Put _ _ key) => guarded (firebase (Update key uri)) st
      | _ => st
      end
  | EvUploadError i =>
      match firebase_log st !! i with
      | Some (Put _ _ _) => guarded (console_error ErrUpload) st
      | _ => st
      end
  | EvMetadata i url =>
      match firebase_log st !! i with
      | Some (GetMetadata _ img) =>
          set_messageList (set_img_src img url <$> messageList st) st
      | _ => st
      end
  | EvMediaGranted i s =>
      match media_requests st !! i with
      | Some (cb, Pending) =>
          guarded (media_granted cb s)
            (set_media_requests (<[i := (cb, Granted)]> (media_requests st)) st)
      | _ => st
      end
  | EvMediaDenied i =>
      match media_requests st !! i with
      | Some (cb, Pending) =>
          guarded media_denied
            (set_media_requests (<[i := (cb, Denied)]> (media_requests st)) st)
      | _ => st
      end
  | EvPeerOpen id =>
      if peer_created st then guarded (modify (set_peerId (Some id)) >> saveUser) st else st
  | EvPeerCall remote =>
      if peer_created st then
        guarded (let* n := fresh in reciveCall {| c_no := n; c_peer := Some remote |})
          (incoming remote st)
      else st
  | EvPeerClose => if peer_created st then guarded endPeerJs st else st
  | EvPeerError =>
      if peer_created st then guarded (console_error ErrPeer >> endPeerJs) st else st
  | EvPeerConnections table =>
      match peer st with
      | Some pr => set_peer (Some {| peer_no := peer_no pr; connections := table |}) st
      | None => st
      end
  | EvCallSignal c e s =>
      foldl (λ st reg, if bool_decide (reg.1.1 = c ∧ reg.1.2 = e)
                       then run_call_handler reg.2 s st else st)
            st (call_on st)
  end.

(** The page after a sequence of events. *)
Definition run (evs : list Event) (st : State) : State := foldl (λ st e, step e st) st evs.

Arguments startsWith : simpl never.
Arguments occurs : simpl never.
Arguments escapeHTML : simpl never.
Arguments replace_newlines : simpl never.
Arguments deliver_all : simpl never.

(** * Vocabulary of the properties *)

(** ** Methods and parts of the state *)

(** [m] leaves the part [π] of the state as it found it, raised or not. *)
Definition keeps {X A} (π : State → X) (m : M A) : Prop :=
  ∀ st, π (settle (m st)) = π st.

(** [m] maintains [P], raised or not. *)
Definition preserves {A} (P : State → Prop) (m : M A) : Prop :=
  ∀ st, P st → P (settle (m st)).

(** ** Example data *)

Definition alice : AuthUser :=
  {| uid := "alice"; displayName := "Alice"; email := "alice@example.com";
     photoURL := None |}.

Definition bob_record : UserRecord :=
  {| ur_name := "Bob"; ur_email := "bob@example.com"; ur_photoUrl := None;
     ur_peerId := Some "p-bob" |}.

Definition carol_record : UserRecord :=
  {| ur_name := "Carol"; ur_email := "carol@example.com"; ur_photoUrl := None;
     ur_peerId := Some "p-carol" |}.

Definition bob_without_peer : UserRecord :=
  {| ur_name := "Bob"; ur_email := "bob@example.com"; ur_photoUrl := None;
     ur_peerId := None |}.

Definition bob_peer_carol : UserRecord :=
  {| ur_name := "Bob"; ur_email := "bob@example.com"; ur_photoUrl := None;
     ur_peerId := Some "carol" |}.

(** Alice signed in, microphone granted, nobody in the roster. *)
Definition signed_in : State :=
  run [EvAuthStateChanged (Some alice); EvMediaGranted 0 7] init.

(** Alice signed in, microphone granted, Bob in the roster. *)
Definition alice_sees_bob : State :=
  run [EvAuthStateChanged (Some alice); EvMediaGranted 0 7; EvUserAdded "bob" bob_record] init.

(** Alice signed in, with a message typed and not sent. *)
Definition alice_typing : State :=
  run [EvAuthStateChanged (Some alice); EvInput "hello"] init.

(** The record [saveImageMessage] pushes before the upload. *)
Definition placeholder_record (u : AuthUser) : MessageRecord :=
  {| mr_name := displayName u; mr_text := None;
     mr_photoUrl := Some (or_default (photoURL u) PROFILE_PLACEHOLDER);
     mr_imageUrl := Some LOADING_IMAGE_URL |}.

(** ** The message feed *)

Definition keys (st : State) : list string := md_id <$> messageList st.

(** The entry [document.getElementById(key)] denotes. *)
Definition entry (key : string) (st : State) : option MessageDiv :=
  snd <$> list_find (λ d, md_id d = key) (messageList st).

(** ** Call sessions *)

(** What rendering the roster never writes. *)
Definition core (st : State)
  : option Call * list BrokerCmd * option Peer * option Stream
    * list (MediaCallback * Settled) * option AuthUser * list FirebaseCmd
    * list (nat * CallEvent * CallHandler) :=
  (call st, broker_log st, peer st, mediaStream st, media_requests st, currentUser st,
   firebase_log st, call_on st).

(** How a broker command changes the calls the page has open. *)
Definition session_step (open : list nat) (c : BrokerCmd) : list nat :=
  match c with
  | PlaceCall _ _ n => if decide (n ∈ open) then open else open ++ [n]
  | Answer n _ => if decide (n ∈ open) then open else open ++ [n]
  | CloseCall n => filter (λ m, m ≠ n) open
  | NewPeer _ => open
  | Destroy _ => open
  end.

(** The calls placed or answered and not closed since, oldest first. *)
Definition sessions (log : list BrokerCmd) : list nat := foldl session_step [] log.

(** The calls open after each command of a log, and the most that were open
    at once. *)
Definition peak_step (a : list nat * nat) (c : BrokerCmd) : list nat * nat :=
  (session_step a.1 c, a.2 `max` length (session_step a.1 c)).
Definition peak (log : list BrokerCmd) : nat := (foldl peak_step ([], 0) log).2.

(** The call the page holds in [this.call]. *)
Definition held (st : State) : list nat :=
  match call st with
  | Some c => [c_no c]
  | None => []
  end.

(** The broker's open calls are exactly the one the page holds, and there
    never were two. *)
Definition one_session (st : State) : Prop :=
  sessions (broker_log st) = held st ∧ peak (broker_log st) ≤ 1.

(** Every command of [cmds], sent with [open] open, leaves at most one call
    open. *)
Fixpoint at_most_one (open : list nat) (cmds : list BrokerCmd) : Prop :=
  match cmds with
  | [] => True
  | c :: cmds => length (session_step open c) ≤ 1 ∧ at_most_one (session_step open c) cmds
  end.

(** The handlers that end the call. *)
Definition ends_call (h : CallHandler) : bool :=
  match h with
  | HEndCall => true
  | HLogEndCall => true
  | HPeerVideo => false
  end.

(** The command [endCall] sends, if any. *)
Definition closing (st : State) : list BrokerCmd :=
  match call st with
  | Some c => [CloseCall (c_no c)]
  | None => []
  end.

(** The command [initPeerJs] sends when the peer is missing, if any. *)
Definition opening (st : State) : list BrokerCmd :=
  match peer st, currentUser st with
  | None, Some _ => [NewPeer (next_id st)]
  | _, _ => []
  end.

(** ** The roster *)

Definition uids (st : State) : list string := ud_id <$> userList st.

(** The peer identifiers that are ids of phone buttons. *)
Definition phone_id (d : UserDiv) : option string := ud_phone d ≫= ph_id.


Definition all_subscribed : list ChildEvent := [child_added; child_changed; child_removed].

(** ** The ids of the document *)

(** The ids of the elements of the roster, in the order of the document:
    every entry, and then its button if it has one with an id. *)
Definition roster_ids (l : list UserDiv) : list string :=
  l ≫= λ d, ud_id d :: option_list (phone_id d).

(** All ids of the document, in its order. *)
Definition document_ids (st : State) : list string :=
  page_ids ++ ["messages"] ++ keys st ++ ["users"] ++ roster_ids (userList st).

(** ** Incoming calls *)


(** A user whose uid is the id of the roster itself. *)
Definition mallory_record : UserRecord :=
  {| ur_name := "Mallory"; ur_email := "mallory@example.com"; ur_photoUrl := None;
     ur_peerId := Some "p-mallory" |}.

(** A text message, and an image message. *)
Definition says (who text : string) : MessageRecord :=
  {| mr_name := who; mr_text := Some text; mr_photoUrl := None; mr_imageUrl := None |}.
Definition shows (who uri : string) : MessageRecord :=
  {| mr_name := who; mr_text := None; mr_photoUrl := None; mr_imageUrl := Some uri |}.

(** Thirteen messages in the store, in the order of their keys. *)
Definition thirteen : list Event :=
  [EvMessageAdded "m01" (says "Bob" "1"); EvMessageAdded "m02" (says "Bob" "2");
   EvMessageAdded "m03" (says "Bob" "3"); EvMessageAdded "m04" (says "Bob" "4");
   EvMessageAdded "m05" (says "Bob" "5"); EvMessageAdded "m06" (says "Bob" "6");
   EvMessageAdded "m07" (says "Bob" "7"); EvMessageAdded "m08" (says "Bob" "8");
   EvMessageAdded "m09" (says "Bob" "9"); EvMessageAdded "m10" (says "Bob" "10");
   EvMessageAdded "m11" (says "Bob" "11"); EvMessageAdded "m12" (says "Bob" "12");
   EvMessageAdded "m13" (says "Bob" "13")].

(** ** The message form *)

(** The record [saveMessage] pushes for the text [v]. *)
Definition text_record (u : AuthUser) (v : string) : MessageRecord :=
  {| mr_name := displayName u; mr_text := Some v;
     mr_photoUrl := Some (or_default (photoURL u) PROFILE_PLACEHOLDER); mr_imageUrl := None |}.

(** Somebody signed in has the messages reference to write to. *)
Definition can_write (st : State) : Prop := currentUser st = None ∨ messagesRef st = true.

(** ** The entries of the document *)

(** The ids of the entries, of the feed and of the roster. *)
Definition entry_ids (st : State) : list string * list string := (keys st, uids st).

(** No two entries of the document share an id, the empty one apart. *)
Definition entries_apart (st : State) : Prop :=
  NoDup (filter (λ k, k ≠ "") (keys st ++ uids st)).

(** Every [<] of [h] opens a [<br>]. *)
Definition inert (h : string) : Prop :=
  ∀ pre post, h = pre +:+ String "<" post → ∃ rest, post = "br>" +:+ rest.

(** ** Presence *)

(** Every write of a presence record comes right after the registration of
    its removal on disconnect. *)
Definition presence_guarded (log : list FirebaseCmd) : Prop :=
  ∀ i u r, log !! i = Some (SetUser u r) →
           ∃ j, i = S j ∧ log !! j = Some (OnDisconnectRemove u).

Definition is_SetUser (c : FirebaseCmd) : bool :=
  match c with
  | SetUser _ _ => true
  | _ => false
  end.

(** The record [saveUser] writes. *)
Definition presence_record (u : AuthUser) (pid : jsstring) : UserRecord :=
  {| ur_name := displayName u; ur_email := email u;
     ur_photoUrl := Some (or_default (photoURL u) PROFILE_PLACEHOLDER);
     ur_peerId := if truthy pid then pid else None |}.

(** A roster entry as [displayUser] draws it while nobody is signed in. *)
Definition anonymous_entry (key : string) (val : UserRecord) : UserDiv :=
  {| ud_id := key;
     ud_pic := if truthy (ur_photoUrl val) then css_url <$> ur_photoUrl val else None;
     ud_name := ur_name val;
     ud_phone := Some {| ph_id := None; ph_icon := ""; ph_click := [] |} |}.

(** Alice signed in and connected, her peer open under the id "p-alice". *)
Definition alice_online : State :=
  run [EvAuthStateChanged (Some alice); EvOnline true; EvMediaGranted 0 7; EvPeerOpen "p-alice"]
    init.

(** ** The peer *)

(** Peers are numbered as they are made, only peers that were made are
    destroyed, and the peer held was made and not destroyed. *)
Definition peers_in_order (st : State) : Prop :=
  (∀ n, NewPeer n ∈ broker_log st → n < next_id st) ∧
  (∀ n, Destroy n ∈ broker_log st → NewPeer n ∈ broker_log st) ∧
  (∀ pr, peer st = Some pr →
         NewPeer (peer_no pr) ∈ broker_log st ∧ Destroy (peer_no pr) ∉ broker_log st).

Definition is_Destroy (c : BrokerCmd) : bool :=
  match c with
  | Destroy _ => true
  | _ => false
  end.

(** * Properties *)

(** ** Reasoning about methods *)

Lemma bind_Ok {A B} (m : M A) (k : A → M B) st a st' :
  m st = Ok a st' → bind m k st = k a st'.
Proof. unfold bind. by intros ->. Qed.

Lemma bind_Throw {A B} (m : M A) (k : A → M B) st st' :
  m st = Throw st' → bind m k st = Throw st'.
Proof. unfold bind. by intros ->. Qed.

(** Reads of a field through the writes before it. *)
Ltac fields :=
  cbn [currentUser messagesRef mediaStream peer peerId call isOnline CALL_EVENTLISTERS
       messageList userList messageInput submitDisabled mediaCapture snackbar chrome myVideo
       peerVideo timers console firebase_log broker_log media_requests call_on msg_subs
       user_subs next_id db_users db_messages set_currentUser set_messagesRef set_mediaStream
       set_peer set_peerId set_call set_isOnline set_CALL_EVENTLISTERS set_messageList
       set_userList set_messageInput set_submitDisabled set_mediaCapture set_snackbar
       set_chrome set_myVideo set_peerVideo set_timers set_console set_firebase_log
       set_broker_log set_media_requests set_call_on set_msg_subs set_user_subs set_next_id
       set_db_users set_db_messages settle app andb negb].
Ltac fields_in H :=
  cbn [currentUser messagesRef mediaStream peer peerId call isOnline CALL_EVENTLISTERS
       messageList userList messageInput submitDisabled mediaCapture snackbar chrome myVideo
       peerVideo timers console firebase_log broker_log media_requests call_on msg_subs
       user_subs next_id db_users db_messages set_currentUser set_messagesRef set_mediaStream
       set_peer set_peerId set_call set_isOnline set_CALL_EVENTLISTERS set_messageList
       set_userList set_messageInput set_submitDisabled set_mediaCapture set_snackbar
       set_chrome set_myVideo set_peerVideo set_timers set_console set_firebase_log
       set_broker_log set_media_requests set_call_on set_msg_subs set_user_subs set_next_id
       set_db_users set_db_messages settle app andb negb] in H.

Section keeps.
Context {X : Type} (π : State → X).

Lemma keeps_ret {A} (a : A) : keeps π (ret a).
Proof. done. Qed.

Lemma keeps_throw {A} : keeps π (@throw A).
Proof. done. Qed.

Lemma keeps_gets {A} (f : State → A) : keeps π (gets f).
Proof. done. Qed.

Lemma keeps_modify f : (∀ st, π (f st) = π st) → keeps π (modify f).
Proof. intros H st. apply H. Qed.

Lemma keeps_bind {A B} (m : M A) (k : A → M B) :
  keeps π m → (∀ a, keeps π (k a)) → keeps π (bind m k).
Proof.
  intros Hm Hk st. unfold bind. specialize (Hm st).
  destruct (m st) as [a st'|st']; simpl in *; [|done].
  by rewrite Hk.
Qed.

Lemma keeps_when b (m : M unit) : keeps π m → keeps π (when b m).
Proof. destruct b; [done|]. intros _. apply keeps_ret. Qed.

Lemma keeps_guarded {A} (m : M A) st : keeps π m → π (guarded m st) = π st.
Proof. intros H. apply H. Qed.

Lemma keeps_foldl {A} (f : State → A → State) l st :
  (∀ st x, π (f st x) = π st) → π (foldl f st l) = π st.
Proof.
  intros H. revert st. induction l as [|x l IH]; intros st; [done|].
  simpl. by rewrite IH.
Qed.

Lemma keeps_replay {A} (cb : string → A → M unit) l :
  (∀ k v, keeps π (cb k v)) → keeps π (replay cb l).
Proof. intros H st. apply keeps_foldl. intros ? [??]. apply H. Qed.

Lemma keeps_deliver_all {A} (cb : string → A → M unit) l st :
  (∀ k v, keeps π (cb k v)) → π (deliver_all cb l st) = π st.
Proof. intros H. by apply (keeps_replay cb l). Qed.

End keeps.

Ltac keeps_step :=
  first
    [ apply keeps_ret | apply keeps_throw | apply keeps_gets
    | apply keeps_bind | apply keeps_when | apply keeps_replay
    | (apply keeps_modify; intros ?; reflexivity)
    | progress intros
    | case_match
    | assumption ].
Ltac keeps_auto := repeat keeps_step.

Section preserves.
Context (P : State → Prop).

Lemma preserves_ret {A} (a : A) : preserves P (ret a).
Proof. by intros st. Qed.

Lemma preserves_throw {A} : preserves P (@throw A).
Proof. by intros st. Qed.

Lemma preserves_gets {A} (f : State → A) : preserves P (gets f).
Proof. by intros st. Qed.

Lemma preserves_modify f : (∀ st, P st → P (f st)) → preserves P (modify f).
Proof. intros H st. apply H. Qed.

Lemma preserves_bind {A B} (m : M A) (k : A → M B) :
  preserves P m → (∀ a, preserves P (k a)) → preserves P (bind m k).
Proof.
  intros Hm Hk st HP. unfold bind. specialize (Hm st HP).
  destruct (m st) as [a st'|st']; simpl in *; [|done].
  by apply Hk.
Qed.

Lemma preserves_when b (m : M unit) : preserves P m → preserves P (when b m).
Proof. destruct b; [done|]. intros _. apply preserves_ret. Qed.

Lemma preserves_foldl {A} (f : State → A → State) l st :
  (∀ st x, P st → P (f st x)) → P st → P (foldl f st l).
Proof. intros H. revert st. induction l as [|x l IH]; intros st HP; simpl; auto. Qed.

Lemma preserves_replay {A} (cb : string → A → M unit) l :
  (∀ k v, preserves P (cb k v)) → preserves P (replay cb l).
Proof. intros H st HP. apply preserves_foldl; [|done]. intros ? [??] ?. by apply H. Qed.

End preserves.

Ltac preserves_leaf := let H := fresh in intros ? H; exact H.
Ltac preserves_step :=
  first
    [ assumption
    | apply preserves_ret | apply preserves_throw | apply preserves_gets
    | apply preserves_bind | apply preserves_when | apply preserves_replay
    | (apply preserves_modify; preserves_leaf)
    | progress intros
    | case_match ].
Ltac preserves_auto := repeat preserves_step.

Ltac unfold_rendering :=
  unfold unsetUser, reloadUsers, loadUsers, clearUsers, setUser, displayUser, write_pic,
    write_name, set_pic, set_name, alter_user, alter_message, setTimeout_visible, fresh.
(** The methods that open with a case distinction. *)
Ltac unfold_cases :=
  unfold onAuthStateChanged, push_resolved, setImageUrl, run_listener, run_call_handler,
    write_body, set_pic, set_name.

(** [P (step e st)] from [P st]: every callback of [step] is handed to
    [known] first and is otherwise taken apart down to its writes. *)
Ltac preserves_with known :=
  repeat first [known | preserves_step | progress unfold_cases].
Ltac step_case P known :=
  first
    [ match goal with H : _ |- _ => exact H end
    | case_match
    | progress unfold guarded
    | lazymatch goal with
      | |- context [settle (?m ?s)] =>
          let Q := fresh in
          assert (preserves P m) as Q by (preserves_with known);
          apply (Q s)
      end
    | apply (preserves_foldl P); [intros ? ? ?|] ].
Ltac step_cases P known :=
  unfold step, deliver_message, deliver_user, run_listener, run_call_handler, incoming,
    guarded;
  repeat step_case P known.

(** ** Call sessions *)

Lemma setUser_keeps_core key val : keeps core (setUser key val).
Proof. unfold_rendering. keeps_auto. Qed.

Lemma rebuilt_core l st : core (deliver_all setUser l st) = core st.
Proof. apply keeps_deliver_all, setUser_keeps_core. Qed.

Lemma rebuilt_call l st : call (deliver_all setUser l st) = call st.
Proof. by injection (rebuilt_core l st). Qed.

Lemma rebuilt_broker_log l st : broker_log (deliver_all setUser l st) = broker_log st.
Proof. by injection (rebuilt_core l st). Qed.

Lemma rebuilt_peer l st : peer (deliver_all setUser l st) = peer st.
Proof. by injection (rebuilt_core l st). Qed.

Lemma rebuilt_mediaStream l st : mediaStream (deliver_all setUser l st) = mediaStream st.
Proof. by injection (rebuilt_core l st). Qed.

Lemma rebuilt_media_requests l st :
  media_requests (deliver_all setUser l st) = media_requests st.
Proof. by injection (rebuilt_core l st). Qed.

Lemma rebuilt_currentUser l st : currentUser (deliver_all setUser l st) = currentUser st.
Proof. by injection (rebuilt_core l st). Qed.

Lemma rebuilt_call_on l st : call_on (deliver_all setUser l st) = call_on st.
Proof. by injection (rebuilt_core l st). Qed.

Create Rewrite HintDb rebuilt.
#[export] Hint Rewrite rebuilt_call rebuilt_broker_log rebuilt_peer rebuilt_mediaStream
  rebuilt_media_requests rebuilt_currentUser rebuilt_call_on : rebuilt.

Lemma sessions_snoc log c : sessions (log ++ [c]) = session_step (sessions log) c.
Proof. unfold sessions. by rewrite foldl_app. Qed.

Lemma close_held (n : nat) : filter (λ m, m ≠ n) [n] = [].
Proof. by rewrite filter_cons, decide_False by naive_solver. Qed.

(** Reads of the core through a rebuilt roster. *)
Ltac reloaded :=
  unfold reloadUsers, clearUsers, loadUsers, replay, bind, gets, modify;
  fields; autorewrite with rebuilt; fields.

(** *** What the call methods do *)

Lemma reloadUsers_Ok st : reloadUsers st = Ok tt (settle (reloadUsers st)).
Proof. done. Qed.

Lemma reloadUsers_keeps_core : keeps core reloadUsers.
Proof. unfold_rendering. keeps_auto. Qed.

Lemma endCall_spec st :
  ∃ st', endCall st = Ok tt st' ∧
         core st' = (None, broker_log st ++ closing st, peer st, mediaStream st,
                     media_requests st, currentUser st, firebase_log st, call_on st).
Proof.
  unfold endCall, closing, bind, gets, ret. destruct (call st) as [c|] eqn:Hc.
  - unfold broker, modify. rewrite reloadUsers_Ok. eexists. split; [done|].
    by rewrite reloadUsers_keeps_core.
  - eexists. split; [done|]. unfold core. by rewrite Hc, app_nil_r.
Qed.

Lemma dropCall_spec st :
  ∃ st', dropCall st = Ok tt st' ∧
         core st' = (None, broker_log st ++ closing st, peer st, mediaStream st,
                     media_requests st, currentUser st, firebase_log st, call_on st).
Proof.
  unfold dropCall, bind, gets, when. destruct (call st) as [c|] eqn:Hc; simpl.
  - apply endCall_spec.
  - eexists. split; [done|]. unfold core, closing. by rewrite Hc, app_nil_r.
Qed.

Lemma ensurePeer_spec st :
  ∃ st', ensurePeer st = Ok tt st' ∧
         call st' = call st ∧ broker_log st' = broker_log st ++ opening st ∧
         mediaStream st' = mediaStream st ∧ media_requests st' = media_requests st ∧
         currentUser st' = currentUser st ∧ firebase_log st' = firebase_log st ∧
         call_on st' = call_on st ∧
         (is_Some (peer st) ∨ is_Some (currentUser st) → is_Some (peer st')).
Proof.
  unfold ensurePeer, opening, initPeerJs, checkSignedInWithMessage, showSnackbar, broker, fresh,
    bind, gets, modify, when, ret.
  destruct (peer st) as [pr|] eqn:Hpr, (currentUser st) as [u|] eqn:Hu; simpl;
    rewrite ?Hu; simpl; eexists; (split; [done|]); simpl; rewrite ?app_nil_r;
    rewrite ?Hpr; split_and!; try done.
  by intros [[? [=]]|[? [=]]].
Qed.

(** [callToUser] once a stream is cached: the peer is made if it is missing,
    the call held is closed, and then the call is placed, unless no peer
    could be made. *)
Lemma callToUser_spec p s st :
  mediaStream st = Some s →
  ∃ st1 st',
    core st1 = (None, broker_log st ++ opening st ++ closing st, peer st1, Some s,
                media_requests st, currentUser st, firebase_log st, call_on st) ∧
    (is_Some (peer st) ∨ is_Some (currentUser st) → is_Some (peer st1)) ∧
    callToUser p st = (if peer st1 is Some _ then Ok tt st' else Throw st1) ∧
    (is_Some (peer st1) →
     call st' = Some {| c_no := next_id st1; c_peer := p |} ∧
     broker_log st' = broker_log st ++ opening st ++ closing st
                        ++ [PlaceCall p (Some s) (next_id st1)] ∧
     mediaStream st' = Some s ∧ media_requests st' = media_requests st ∧
     call_on st' = call_on st ++ [(next_id st1, on_close, HEndCall);
                                  (next_id st1, on_error, HLogEndCall)]).
Proof.
  intros Hs. unfold callToUser. unfold bind at 1. unfold gets at 1. rewrite Hs.
  destruct (ensurePeer_spec st) as (stA & HA & HAc & HAl & HAs & HAm & HAu & HAf & HAo & HAp).
  rewrite (bind_Ok _ _ _ _ _ HA).
  destruct (dropCall_spec stA) as (stB & HB & HBc).
  rewrite (bind_Ok _ _ _ _ _ HB).
  injection HBc as HBcall HBlog HBpeer HBs HBm HBu HBf HBo.
  unfold closing in *. rewrite HAl, HAc in HBlog.
  rewrite HAs, Hs in HBs. rewrite HAm in HBm. rewrite HAu in HBu. rewrite HAf in HBf.
  rewrite HAo in HBo. rewrite <-(assoc_L (++)) in HBlog.
  exists stB. unfold peer_call, call_subscribe, broker, fresh, bind, gets, modify, ret, throw.
  destruct (peer stB) as [pr|] eqn:Hpr.
  - rewrite reloadUsers_Ok. eexists. split_and!.
    + unfold core. by rewrite HBcall, HBlog, HBs, HBm, HBu, HBf, HBo, Hpr.
    + by rewrite HBpeer.
    + done.
    + intros _. reloaded.
      rewrite HBlog, HBs, HBm, HBo. split_and!; try done.
      * by rewrite <-!(assoc_L (++)).
      * by rewrite <-(assoc_L (++)).
  - exists stB. split_and!.
    + unfold core. by rewrite HBcall, HBlog, HBs, HBm, HBu, HBf, HBo, Hpr.
    + by rewrite HBpeer.
    + done.
    + by intros [? [=]].
Qed.

Lemma answerCall_spec user c st :
  ∃ st',
    answerCall user c st = Ok tt st' ∧
    call st' = Some c ∧
    broker_log st' = broker_log st ++ closing st ++ [Answer (c_no c) (mediaStream st)] ∧
    mediaStream st' = mediaStream st ∧ media_requests st' = media_requests st ∧
    call_on st' = call_on st ++ [(c_no c, on_stream, HPeerVideo);
                                 (c_no c, on_error, HLogEndCall)].
Proof.
  unfold answerCall.
  destruct (dropCall_spec st) as (stB & HB & HBc).
  rewrite (bind_Ok _ _ _ _ _ HB).
  injection HBc as HBcall HBlog HBpeer HBs HBm HBu HBf HBo.
  unfold call_subscribe, broker, bind, gets, modify. fields.
  rewrite reloadUsers_Ok. eexists. split; [done|].
  reloaded. rewrite HBlog, HBs, HBm, HBo. split_and!; try done.
  - by rewrite <-!(assoc_L (++)).
  - by rewrite <-(assoc_L (++)).
Qed.

(** *** One session at a time *)

Lemma sessions_app log cmds : sessions (log ++ cmds) = foldl session_step (sessions log) cmds.
Proof. unfold sessions. by rewrite foldl_app. Qed.

Lemma peak_sessions log : (foldl peak_step ([], 0) log).1 = sessions log.
Proof.
  unfold sessions. induction log as [|c log IH] using rev_ind; [done|].
  rewrite !foldl_app. simpl. by rewrite IH.
Qed.

Lemma peak_app log cmds :
  peak log ≤ 1 → at_most_one (sessions log) cmds → peak (log ++ cmds) ≤ 1.
Proof.
  revert log. induction cmds as [|c cmds IH]; intros log Hp Hok.
  - by rewrite app_nil_r.
  - destruct Hok as [Hc Hok].
    change (c :: cmds) with ([c] ++ cmds). rewrite (assoc_L (++) log [c] cmds). apply IH.
    + unfold peak in *. rewrite foldl_app. simpl. rewrite peak_sessions. lia.
    + by rewrite sessions_snoc.
Qed.

Lemma held_length st : length (held st) ≤ 1.
Proof. unfold held. destruct (call st); simpl; lia. Qed.

(** The commands a method sends keep the invariant when they leave the call
    the page holds afterwards, one command at a time. *)
Lemma one_session_extend st st' cmds :
  one_session st →
  broker_log st' = broker_log st ++ cmds →
  foldl session_step (held st) cmds = held st' →
  at_most_one (held st) cmds →
  one_session st'.
Proof.
  intros [Hs Hp] Hlog Hheld Hok. unfold one_session. rewrite Hlog. split.
  - by rewrite sessions_app, Hs.
  - apply peak_app; [done|]. by rewrite Hs.
Qed.

Lemma session_step_idle n p s : session_step [] (PlaceCall p s n) = [n].
Proof. done. Qed.

Lemma endCall_one_session : preserves one_session endCall.
Proof.
  intros st H. destruct (endCall_spec st) as (st' & -> & Hc).
  injection Hc as Hcall Hlog _ _ _ _ _ _. simpl.
  eapply one_session_extend; [done..| |]; unfold held, closing in *; rewrite ?Hcall;
    destruct (call st); simpl; rewrite ?close_held; simpl; auto.
Qed.

Lemma initPeerJs_one_session : preserves one_session initPeerJs.
Proof.
  intros st H. unfold initPeerJs, checkSignedInWithMessage, showSnackbar, broker, fresh, bind,
    gets, modify, ret.
  destruct (currentUser st); fields; [|done].
  eapply one_session_extend; [done|reflexivity|done|]. simpl. split; [|done].
  apply held_length.
Qed.

Lemma endPeerJs_one_session : preserves one_session endPeerJs.
Proof.
  intros st H. unfold endPeerJs, broker, bind, gets, modify, ret.
  destruct (peer st); fields; [|done].
  eapply one_session_extend; [done|reflexivity|done|]. simpl. split; [|done].
  apply held_length.
Qed.

Lemma callToUser_one_session p : preserves one_session (callToUser p).
Proof.
  intros st H. destruct (mediaStream st) as [s|] eqn:Hs.
  - destruct (callToUser_spec p s st Hs) as (st1 & st' & Hc & _ & -> & Hok).
    injection Hc as Hcall Hlog _ _ _ _ _.
    assert (one_session st1) as H1.
    { eapply one_session_extend; [done..| |]; unfold held, closing, opening in *;
        rewrite ?Hcall; destruct (call st), (peer st), (currentUser st); simpl;
        rewrite ?close_held; simpl; auto. }
    destruct (peer st1) as [pr|]; simpl; [|done].
    destruct Hok as (Hcall' & Hlog' & _); [done|].
    eapply one_session_extend; [exact H1| | |].
    + rewrite Hlog', Hlog, <-!(assoc_L (++)). done.
    + unfold held. by rewrite Hcall, Hcall'.
    + unfold held. rewrite Hcall. simpl. auto.
  - unfold callToUser, bind, gets. rewrite Hs. done.
Qed.

Lemma answerCall_one_session user c : preserves one_session (answerCall user c).
Proof.
  intros st H. destruct (answerCall_spec user c st) as (st' & -> & Hcall & Hlog & _). simpl.
  eapply one_session_extend; [done..| |]; unfold held, closing in *; rewrite ?Hcall;
    destruct (call st); simpl; rewrite ?close_held; simpl; auto.
Qed.

Lemma step_one_session e st : one_session st → one_session (step e st).
Proof.
  intros HP. destruct e;
    step_cases one_session
      ltac:(first [ apply endCall_one_session | apply callToUser_one_session
                  | apply answerCall_one_session | apply initPeerJs_one_session
                  | apply endPeerJs_one_session ]).
Qed.

Lemma run_one_session evs : one_session (run evs init).
Proof.
  unfold run. apply (preserves_foldl one_session).
  - intros st e. apply step_one_session.
  - split; [done|]. unfold peak. simpl. lia.
Qed.

(** C1.  After any sequence of events the calls the page has opened with the
    broker and not closed are exactly the one in [this.call], and at no
    point of the run were two calls open.  With a stream cached,
    [callToUser] completes whenever a peer is at hand or a signed-in user to
    make one for; and whenever it completes, it has first closed the call
    held and then placed the new one, which is afterwards the only open call.
    [answerCall] always completes, and does the same with the call it
    answers. *)
Theorem single_session (evs : list Event) :
  let st := run evs init in
  sessions (broker_log st) = held st ∧
  peak (broker_log st) ≤ 1 ∧
  (∀ p s,
     mediaStream st = Some s →
     (is_Some (peer st) ∨ is_Some (currentUser st) → ∃ st', callToUser p st = Ok tt st') ∧
     (∀ st',
        callToUser p st = Ok tt st' →
        ∃ n,
          call st' = Some {| c_no := n; c_peer := p |} ∧
          sessions (broker_log st') = [n] ∧
          peak (broker_log st') ≤ 1 ∧
          broker_log st'
          = broker_log st ++ opening st ++ closing st ++ [PlaceCall p (Some s) n])) ∧
  (∀ user c,
     ∃ st',
       answerCall user c st = Ok tt st' ∧
       call st' = Some c ∧
       sessions (broker_log st') = [c_no c] ∧
       peak (broker_log st') ≤ 1 ∧
       broker_log st'
       = broker_log st ++ closing st ++ [Answer (c_no c) (mediaStream st)]).
Proof.
  simpl. pose proof (run_one_session evs) as H. set (st := run evs init) in *.
  split_and!.
  - apply H.
  - apply H.
  - intros p s Hs.
    pose proof (callToUser_one_session p st H) as H'.
    destruct (callToUser_spec p s st Hs) as (st1 & st' & _ & Hp & Hrun & Hok).
    split.
    + intros [pr Hpr]%Hp. rewrite Hpr in Hrun. by exists st'.
    + intros st2 Hrun2. rewrite Hrun2 in Hrun, H'. simpl in H'.
      destruct (peer st1) as [pr|] eqn:Hpr; [|done]. injection Hrun as ->.
      destruct Hok as (Hcall & Hlog & _); [done|].
      destruct H' as [H' Hpeak]. unfold held in H'. rewrite Hcall in H'.
      exists (next_id st1). by split_and!.
  - intros user c.
    pose proof (answerCall_one_session user c st H) as H'.
    destruct (answerCall_spec user c st) as (st' & Hrun & Hcall & Hlog & _).
    rewrite Hrun in H'. simpl in H'.
    destruct H' as [H' Hpeak]. unfold held in H'. rewrite Hcall in H'.
    exists st'. by split_and!.
Qed.

(** Alice is in a call with Bob and rings Carol: the call completes. *)
Lemma single_session_witness :
  ∃ st',
    callToUser (Some "p-carol")
      (run [EvAuthStateChanged (Some alice); EvMediaGranted 0 7;
            EvUserAdded "bob" bob_record; EvClickPhone 0] init)
    = Ok tt st'.
Proof.
  pose proof (single_session [EvAuthStateChanged (Some alice); EvMediaGranted 0 7;
                              EvUserAdded "bob" bob_record; EvClickPhone 0])
    as (_ & _ & H & _).
  apply (H (Some "p-carol") 7).
  - vm_compute. reflexivity.
  - left. vm_compute. eexists. reflexivity.
Defined.

(** ** Ending a call *)

(** A close or error signal that reaches [endCall] tears the session down:
    the call held is closed, [this.call] is null, the roster is rebuilt from
    the collection, and nothing is placed again. *)
Lemma endCall_tears_down st c :
  call st = Some c →
  ∃ st',
    endCall st = Ok tt st' ∧
    call st' = None ∧
    broker_log st' = broker_log st ++ [CloseCall (c_no c)] ∧
    userList st'
    = userList (settle (reloadUsers (set_call None
                          (set_broker_log (broker_log st ++ [CloseCall (c_no c)]) st)))).
Proof.
  intros Hc. unfold endCall, broker, bind, gets, modify. rewrite Hc. fields.
  rewrite reloadUsers_Ok. eexists. split; [done|]. by reloaded.
Qed.

(** On a call placed by [callToUser] both signals end the session. *)
Lemma placed_call_signals p s st :
  mediaStream st = Some s → is_Some (peer st) ∨ is_Some (currentUser st) →
  ∃ st' n,
    callToUser p st = Ok tt st' ∧
    call_on st' = call_on st ++ [(n, on_close, HEndCall); (n, on_error, HLogEndCall)].
Proof.
  intros Hs Hp.
  destruct (callToUser_spec p s st Hs) as (st1 & st' & _ & Hp' & Hrun & Hok).
  destruct (Hp' Hp) as [pr Hpr]. rewrite Hpr in Hrun.
  destruct Hok as (_ & _ & _ & _ & Hon); [by rewrite Hpr|].
  by exists st', (next_id st1).
Qed.

Lemma endCall_idle st : call (settle (endCall st)) = None.
Proof. destruct (endCall_spec st) as (st' & -> & Hc). by injection Hc. Qed.

Lemma run_call_handler_ends h s st :
  ends_call h = true → call (run_call_handler h s st) = None.
Proof.
  destruct h; [intros _..|done]; unfold run_call_handler, guarded.
  - apply endCall_idle.
  - unfold console_error, bind, modify. apply endCall_idle.
Qed.

Lemma run_call_handler_idle h s st :
  call st = None → call (run_call_handler h s st) = None.
Proof.
  intros Hc. destruct h; [by apply run_call_handler_ends..|done].
Qed.

(** A signal for which the call has a handler that ends the call leaves the
    page without a session, whatever else is registered. *)
Lemma call_signal_ends_session c e s st :
  (∃ h, (c, e, h) ∈ call_on st ∧ ends_call h = true) →
  call (step (EvCallSignal c e s) st) = None.
Proof.
  unfold step. generalize (call_on st) as regs. intros regs (h & Hin & Hh).
  revert st. induction regs as [|[[c' e'] h'] regs IH]; intros st.
  - by apply elem_of_nil in Hin.
  - simpl. apply elem_of_cons in Hin as [[= -> -> ->]|Hin].
    + rewrite bool_decide_eq_true_2 by done.
      apply (preserves_foldl (λ st, call st = None)).
      * intros st' [[??]?] Hc. case_bool_decide; [|done]. by apply run_call_handler_idle.
      * by apply run_call_handler_ends.
    + by apply IH.
Qed.

(** C2 breaks on a call taken with [answerCall]: it registers handlers for
    [stream] and [error] and none for [close].  Alice answers Bob's call; the
    broker then signals that the call closed, and the page stays as it was,
    the session still held.  (An error on the same call does end it, and so
    do both signals on a call Alice placed.) *)
Theorem answered_call_ignores_close :
  let answered := run [EvPeerCall "p-bob"; EvClickAction 0] alice_sees_bob in
  let placed := run [EvClickPhone 0] alice_sees_bob in
  call answered = Some {| c_no := 2; c_peer := Some "p-bob" |} ∧
  call_on answered = [(2, on_stream, HPeerVideo); (2, on_error, HLogEndCall)] ∧
  step (EvCallSignal 2 on_close 0) answered = answered ∧
  call (step (EvCallSignal 2 on_error 0) answered) = None ∧
  call placed = Some {| c_no := 2; c_peer := Some "p-bob" |} ∧
  call_on placed = [(2, on_close, HEndCall); (2, on_error, HLogEndCall)] ∧
  call (step (EvCallSignal 2 on_close 0) placed) = None ∧
  call (step (EvCallSignal 2 on_error 0) placed) = None.
Proof. vm_compute. done. Qed.

(** ** Calling before the microphone is granted *)

(** C3 breaks on the peer identifier of the retried call.  Alice is signed
    in, no stream yet; [callToUser("p-bob")] only asks for the microphone,
    handing over [this.callToUser.bind(this)].  When the stream is granted
    that callback is called without an argument: the call goes to
    [undefined], not to ["p-bob"].  When it is denied, nothing is placed. *)
Theorem deferred_call_loses_peer_id :
  let before := run [EvAuthStateChanged (Some alice)] init in
  let deferred := settle (callToUser (Some "p-bob") before) in
  media_requests deferred = [(CbSignedIn, Pending); (CbCallToUser, Pending)] ∧
  broker_log deferred = [] ∧ call deferred = None ∧
  broker_log (step (EvMediaGranted 1 7) deferred) = [NewPeer 0; PlaceCall None (Some 7) 1] ∧
  call (step (EvMediaGranted 1 7) deferred) = Some {| c_no := 1; c_peer := None |} ∧
  broker_log (step (EvMediaDenied 1) deferred) = [] ∧
  call (step (EvMediaDenied 1) deferred) = None.
Proof. vm_compute. done. Qed.

(** ** The media stream *)







(** ** The roster *)

(** C4 breaks when a uid is also the id of another element of the document:
    [displayUser] looks its entry up with [getElementById(uid)].  Alice is
    signed in and subscribed, roster and collection are empty.  Bob is added
    with the peer identifier ["carol"], then Carol is added: the lookup comes
    back with Bob's phone button, [displayUser] raises and the roster shows
    Bob alone, although the collection holds Bob and Carol.  The rebuild after
    a removal draws Bob first and misses Carol again.  In the same way a user
    whose uid is ["users"], the id of the roster itself, gets no entry.
    With ids that do not meet, additions, changes and removals leave the
    roster with the uids of the collection. *)
Theorem roster_misses_uid_used_as_peer_id :
  let met := run [EvUserAdded "bob" bob_peer_carol; EvUserAdded "carol" carol_record]
               signed_in in
  let rebuilt := run [EvUserAdded "dave" bob_record; EvUserRemoved "dave"] met in
  let named_users := step (EvUserAdded "users" mallory_record) signed_in in
  let apart := run [EvUserAdded "bob" bob_record; EvUserAdded "carol" carol_record;
                    EvUserChanged "bob" bob_without_peer; EvUserRemoved "bob"] signed_in in
  (user_subs signed_in = all_subscribed ∧ uids signed_in = [] ∧ db_users signed_in = ∅) ∧
  (db_users met !! "bob" = Some bob_peer_carol ∧ db_users met !! "carol" = Some carol_record ∧
   uids met = ["bob"]) ∧
  (db_users rebuilt !! "bob" = Some bob_peer_carol ∧
   db_users rebuilt !! "carol" = Some carol_record ∧ db_users rebuilt !! "dave" = None ∧
   uids rebuilt = ["bob"]) ∧
  (db_users named_users !! "users" = Some mallory_record ∧ uids named_users = []) ∧
  (db_users apart !! "bob" = None ∧ db_users apart !! "carol" = Some carol_record ∧
   uids apart = ["carol"]).
Proof. vm_compute. done. Qed.

(** ** The call control of a roster entry *)

Lemma alter_last {A} (f : A → A) (l : list A) (x : A) :
  alter f (length l) (l ++ [x]) = l ++ [f x].
Proof.
  rewrite <-(Nat.add_0_r (length l)) at 1. by rewrite alter_app_r.
Qed.

Lemma lookup_last_app {A} (l : list A) (x : A) : (l ++ [x]) !! length l = Some x.
Proof. by rewrite list_lookup_middle. Qed.

(** X16.  The button [displayUser] draws for an entry it creates, for a
    signed-in user and a live peer: none on the user's own entry; the
    untouched template, with no icon and no listener, when the record has no
    peer identifier; otherwise [call_end] with [endCall] when the peer's
    table has the identifier, and [call] with [callToUser] of that
    identifier when it has not. *)
Lemma fresh_entry_control id name picUrl pid me pr st :
  getElementById id st = None →
  currentUser st = Some me → peer st = Some pr →
  ∃ d,
    userList (settle (displayUser id name picUrl pid st)) = userList st ++ [d] ∧
    ud_id d = id ∧
    ud_phone d =
      if decide (uid me = id) then None
      else if truthy pid then
        Some {| ph_id := pid;
                ph_icon := if bool_decide (default "" pid ∈ connections pr)
                           then "call_end" else "call";
                ph_click := [{| l_no := next_id st;
                                l_action := if bool_decide (default "" pid ∈ connections pr)
                                            then ActEndCall
                                            else ActCallToUser (default "" pid) |}] |}
      else Some {| ph_id := None; ph_icon := ""; ph_click := [] |}.
Proof.
  intros Hnew Hme Hpr.
  unfold displayUser, write_pic, write_name, set_pic, set_name, query_part, query_phone,
    alter_user, setTimeout_visible, fresh, is_uid, is_other, bind, gets, modify, when, ret,
    throw.
  rewrite Hnew. fields.
  destruct (truthy picUrl); fields; rewrite Hme, !alter_last, ?lookup_last_app;
    cbn [mbind option_bind ud_phone USER_TEMPLATE set_ud_pic set_ud_name].
  all: rewrite (bool_decide_eq_true_2 (is_Some _)) by (by eexists); rewrite andb_true_r.
  all: destruct (decide (uid me = id)) as [Heq|Hne];
    rewrite ?(bool_decide_eq_true_2 _ Heq), ?(bool_decide_eq_false_2 _ Hne); fields;
    rewrite ?alter_last.
  all: try (rewrite (bool_decide_eq_false_2 (uid me ≠ id)) by (by intros []); fields;
            eexists; split_and!; [reflexivity|done|done]).
  all: rewrite (bool_decide_eq_true_2 (uid me ≠ id)) by done; fields.
  all: destruct (truthy pid); fields;
    try (eexists; split_and!; [reflexivity|done|done]).
  all: rewrite ?alter_last; destruct (CALL_EVENTLISTERS st !! id); fields;
    rewrite ?alter_last, ?Hpr; fields; rewrite ?alter_last.
  all: eexists; (split_and!; [reflexivity|done|by simpl]).
Qed.

Lemma fresh_entry_control_witness :
  ∃ d,
    userList (settle (displayUser "bob" "Bob" None (Some "p-bob") signed_in))
    = userList signed_in ++ [d] ∧
    ud_id d = "bob" ∧
    ud_phone d =
      if decide (uid alice = "bob") then None
      else if truthy (Some "p-bob") then
        Some {| ph_id := Some "p-bob";
                ph_icon := if bool_decide (default "" (Some "p-bob")
                                           ∈ connections {| peer_no := 0; connections := ∅ |})
                           then "call_end" else "call";
                ph_click := [{| l_no := next_id signed_in;
                                l_action := if bool_decide
                                                 (default "" (Some "p-bob")
                                                  ∈ connections {| peer_no := 0;
                                                                   connections := ∅ |})
                                            then ActEndCall
                                            else ActCallToUser (default "" (Some "p-bob")) |}] |}
      else Some {| ph_id := None; ph_icon := ""; ph_click := [] |}.
Proof.
  refine (fresh_entry_control "bob" "Bob" None (Some "p-bob") alice
            {| peer_no := 0; connections := ∅ |} signed_in _ _ _).
  - vm_compute. reflexivity.
  - vm_compute. reflexivity.
  - vm_compute. reflexivity.
Defined.

(** C5 breaks when an entry is drawn again.  Bob's entry shows the start-call
    control for ["p-bob"]; his record then changes and has no peer identifier
    any more: the control stays, with its listener.  And after a broker error
    (the peer is null) Carol's new entry gets no control although she has a
    peer identifier. *)
Theorem stale_call_control :
  let changed := step (EvUserChanged "bob" bob_without_peer) alice_sees_bob in
  let no_peer := run [EvPeerError; EvUserAdded "carol" carol_record] alice_sees_bob in
  db_users changed !! "bob" = Some bob_without_peer ∧
  userList changed
  = [{| ud_id := "bob"; ud_pic := None; ud_name := "Bob";
        ud_phone := Some {| ph_id := Some "p-bob"; ph_icon := "call";
                            ph_click := [{| l_no := 1;
                                            l_action := ActCallToUser "p-bob" |}] |} |}] ∧
  peer no_peer = None ∧
  userList no_peer !! 1
  = Some {| ud_id := "carol"; ud_pic := None; ud_name := "Carol";
            ud_phone := Some {| ph_id := Some "p-carol"; ph_icon := ""; ph_click := [] |} |}.
Proof. vm_compute. done. Qed.

(** ** The message feed *)

(** C6 breaks on a key that is the id of another element of the document:
    [displayMessage] looks its entry up with [getElementById(key)].  The
    store holds thirteen messages when Alice signs in: [loadMessages]
    subscribes to the last twelve, for additions and for changes, and the
    feed shows ["m02"] to ["m13"].  A change of ["m05"] rewrites that entry
    where it stands, a new ["m14"] is appended once and rewritten when it is
    delivered again, and a change of ["m01"], which is not among the last
    twelve, is not delivered.  Then a message arrives under the key
    ["messages"], the id of the list itself: the lookup comes back with the
    list, no entry is made for the new key, and author and text go into the
    first entry of the feed, the one of ["m02"]. *)
Theorem message_overwrites_first_entry :
  let loaded := run (thirteen ++ [EvAuthStateChanged (Some alice)]) init in
  let edited := step (EvMessageChanged "m05" (says "Bob" "five")) loaded in
  let grown := step (EvMessageAdded "m14" (says "Bob" "14")) loaded in
  let hit := step (EvMessageAdded "messages" (says "Mallory" "gotcha")) loaded in
  ((db_messages loaded).*1
   = ["m01"; "m02"; "m03"; "m04"; "m05"; "m06"; "m07"; "m08"; "m09"; "m10"; "m11"; "m12";
      "m13"] ∧
   msg_subs loaded = [(12, child_added); (12, child_changed)] ∧
   keys loaded
   = ["m02"; "m03"; "m04"; "m05"; "m06"; "m07"; "m08"; "m09"; "m10"; "m11"; "m12"; "m13"]) ∧
  (keys edited = keys loaded ∧
   entry "m05" edited
   = Some {| md_id := "m05"; md_pic := None; md_name := "Bob"; md_body := BodyHtml "five" |}) ∧
  (keys grown = keys loaded ++ ["m14"] ∧
   keys (step (EvMessageAdded "m14" (says "Bob" "fourteen")) grown) = keys grown ∧
   entry "m14" (step (EvMessageAdded "m14" (says "Bob" "fourteen")) grown)
   = Some {| md_id := "m14"; md_pic := None; md_name := "Bob";
             md_body := BodyHtml "fourteen" |}) ∧
  messageList (step (EvMessageChanged "m01" (says "Bob" "one")) loaded) = messageList loaded ∧
  (last (db_messages hit) = Some ("messages", says "Mallory" "gotcha") ∧
   keys hit = keys loaded ∧
   entry "m02" loaded
   = Some {| md_id := "m02"; md_pic := None; md_name := "Bob"; md_body := BodyHtml "2" |} ∧
   entry "m02" hit
   = Some {| md_id := "m02"; md_pic := None; md_name := "Mallory";
             md_body := BodyHtml "gotcha" |}).
Proof. vm_compute. done. Qed.

(** C7 breaks on a message whose key is the id of an element outside the
    feed.  Alice sees Bob in the roster.  A text is shown with its markup
    characters escaped and a line break where it has a newline, and nothing
    is asked of the storage service; an image given by a storage locator
    shows the placeholder, and the resolved URL on that same entry once the
    locator is resolved; an image given by a URL shows that URL.  But an
    image message under the key ["bob"], Bob's uid, finds Bob's entry in the
    roster: the locator is sent off to be resolved, no placeholder and no
    entry appear in the feed, Bob's entry carries the name of the author, and
    the resolved URL is shown nowhere. *)
Theorem image_message_under_a_uid :
  let text := step (EvMessageAdded "m1" (says "Carol" ("a" +:+ String newline "b <c> & d")))
                alice_sees_bob in
  let stored := step (EvMessageAdded "m2" (shows "Carol" "gs://bucket/cat.png"))
                  alice_sees_bob in
  let direct := step (EvMessageAdded "m3" (shows "Carol" "https://example.com/cat.png"))
                  alice_sees_bob in
  let lost := step (EvMessageAdded "bob" (shows "Carol" "gs://bucket/cat.png"))
                alice_sees_bob in
  (messageList alice_sees_bob = [] ∧ length (firebase_log alice_sees_bob) = 2 ∧
   (ud_id <$> userList alice_sees_bob, ud_name <$> userList alice_sees_bob)
   = (["bob"], ["Bob"])) ∧
  (messageList text
   = [{| md_id := "m1"; md_pic := None; md_name := "Carol";
         md_body := BodyHtml "a<br>b &lt;c&gt; &amp; d" |}] ∧
   firebase_log text = firebase_log alice_sees_bob) ∧
  (messageList stored
   = [{| md_id := "m2"; md_pic := None; md_name := "Carol";
         md_body := BodyImg {| img_no := 2; img_src := LOADING_IMAGE_URL |} |}] ∧
   firebase_log stored = firebase_log alice_sees_bob ++ [GetMetadata "gs://bucket/cat.png" 2] ∧
   messageList (step (EvMetadata 2 "https://cdn.example.com/cat.png") stored)
   = [{| md_id := "m2"; md_pic := None; md_name := "Carol";
         md_body := BodyImg {| img_no := 2;
                               img_src := "https://cdn.example.com/cat.png" |} |}]) ∧
  (messageList direct
   = [{| md_id := "m3"; md_pic := None; md_name := "Carol";
         md_body := BodyImg {| img_no := 2;
                               img_src := "https://example.com/cat.png" |} |}] ∧
   firebase_log direct = firebase_log alice_sees_bob) ∧
  (last (db_messages lost) = Some ("bob", shows "Carol" "gs://bucket/cat.png") ∧
   messageList lost = [] ∧
   firebase_log lost = firebase_log alice_sees_bob ++ [GetMetadata "gs://bucket/cat.png" 2] ∧
   (ud_id <$> userList lost, ud_name <$> userList lost) = (["bob"], ["Carol"]) ∧
   messageList (step (EvMetadata 2 "https://cdn.example.com/cat.png") lost) = []).
Proof. vm_compute. done. Qed.

(** ** Input validation *)

Lemma occurs_cons p c s : occurs p (String c s) = startsWith p (String c s) || occurs p s.
Proof. done. Qed.

Lemma occurs_nil p : occurs p "" = startsWith p "".
Proof. change (occurs p "") with (startsWith p "" || false). apply orb_false_r. Qed.

Lemma startsWith_cons a p b s :
  startsWith (String a p) (String b s) = if decide (a = b) then startsWith p s else false.
Proof. done. Qed.

Lemma append_nil s : "" +:+ s = s.
Proof. done. Qed.

Lemma append_cons c s t : String c s +:+ t = String c (s +:+ t).
Proof. done. Qed.

Lemma startsWith_app p s : startsWith p (p +:+ s) = true.
Proof.
  induction p as [|a p IH]; [by destruct s|].
  by rewrite append_cons, startsWith_cons, decide_True.
Qed.

Lemma startsWith_true p s : startsWith p s = true → ∃ post, s = p +:+ post.
Proof.
  revert s. induction p as [|a p IH]; intros s.
  - intros _. by exists s.
  - destruct s as [|b s]; [done|]. rewrite startsWith_cons.
    destruct (decide (a = b)) as [->|]; [|done].
    intros [post ->]%IH. by exists post.
Qed.

(** [s.match(p + '.*')] succeeds exactly when [p] stands somewhere in [s]. *)
Lemma occurs_iff p s : occurs p s = true ↔ ∃ pre post, s = pre +:+ p +:+ post.
Proof.
  split.
  - induction s as [|c s IH].
    + rewrite occurs_nil. intros [post ->]%startsWith_true. by exists "", post.
    + rewrite occurs_cons. intros [[post ->]%startsWith_true|(pre & post & ->)%IH]%orb_true_iff.
      * by exists "", post.
      * by exists (String c pre), post.
  - intros (pre & post & ->). induction pre as [|c pre IH].
    + rewrite append_nil. destruct (p +:+ post) eqn:E.
      * rewrite occurs_nil, <-E. by rewrite startsWith_app.
      * rewrite occurs_cons, <-E. by rewrite startsWith_app.
    + rewrite append_cons, occurs_cons, IH. apply orb_true_r.
Qed.




(** ** What [getElementById] finds *)

Lemma in_feed_None id l : in_feed id l = None ↔ id ∉ md_id <$> l.
Proof.
  unfold in_feed. rewrite fmap_None, list_find_None, Forall_forall. split.
  - intros H (d & Heq & Hd)%list_elem_of_fmap. by apply (H d Hd).
  - intros H d Hd Heq. apply H, list_elem_of_fmap. by exists d.
Qed.

Lemma in_roster_None id l k : in_roster id l k = None ↔ id ∉ roster_ids l.
Proof.
  revert k. induction l as [|d l IH]; intros k.
  - split; [|done]. intros _ []%elem_of_nil.
  - unfold roster_ids. rewrite bind_cons. fold (roster_ids l).
    cbn [in_roster]. fold (phone_id d).
    rewrite not_elem_of_app, not_elem_of_cons.
    destruct (decide (ud_id d = id)) as [->|Hd]; [by intuition|].
    destruct (decide (phone_id d = Some id)) as [Hp|Hp].
    + split; [done|]. intros [[_ H] _]. destruct H. rewrite Hp. by left.
    + rewrite IH. split; [|tauto]. intros H. split_and!; [done| |done].
      destruct (phone_id d) as [q|]; [|by intros ?%elem_of_nil].
      intros ->%list_elem_of_singleton. done.
Qed.

(** [getElementById] comes back with [null] exactly for the empty string and
    for a string that is the id of no element of the document. *)
Lemma getElementById_None id st :
  getElementById id st = None ↔ id = "" ∨ id ∉ document_ids st.
Proof.
  unfold getElementById, document_ids.
  destruct (decide (id = "")) as [->|Hne]; [by intuition|].
  rewrite !not_elem_of_app, list_elem_of_singleton.
  destruct (decide (id ∈ page_ids)); [by intuition|].
  destruct (decide (id = "messages")); [by intuition|].
  rewrite list_elem_of_singleton.
  destruct (in_feed id (messageList st)) as [e|] eqn:Hf.
  - split; [done|]. intros [?|(_ & _ & H & _)]; [done|].
    apply in_feed_None in H. congruence.
  - apply in_feed_None in Hf.
    destruct (decide (id = "users")); [by intuition|].
    rewrite in_roster_None. unfold keys. tauto.
Qed.



(** ** Inbound calls *)




(** ** The message form *)

(** X1.  While nobody is signed in, the actions that need a user do nothing
    but say so: sending a text, sharing a file that passes the image test,
    publishing the presence record and opening a peer each show "You must
    sign-in first" for 2000 ms, and the only other change is that sharing a
    file clears the file picker.  Nothing is written to the store and no
    peer is made. *)
Theorem signed_out_actions_only_notify (st : State) :
  currentUser st = None →
  let told := set_snackbar (snackbar st ++ [notice "You must sign-in first"]) in
  (messageInput st ≠ "" → saveMessage st = Ok tt (told st)) ∧
  (∀ f fs, mediaCapture st = f :: fs → (∃ pre post, f_type f = pre +:+ "image" +:+ post) →
     saveImageMessage st = Ok tt (told (set_mediaCapture [] st))) ∧
  saveUser st = Ok tt (told st) ∧
  initPeerJs st = Ok tt (told st) ∧
  n_timeout (notice "You must sign-in first") = 2000%N.
Proof.
  intros Hu. simpl. split_and!.
  - intros Hv. unfold saveMessage, checkSignedInWithMessage, showSnackbar, bind, gets, modify, ret.
    rewrite decide_False by done. by rewrite Hu.
  - intros f fs Hf Ht%occurs_iff.
    unfold saveImageMessage, checkSignedInWithMessage, showSnackbar, bind, gets, modify, ret.
    rewrite Hf. simpl. rewrite Ht. simpl. by rewrite Hu.
  - unfold saveUser, checkSignedInWithMessage, showSnackbar, bind, gets, modify, ret.
    by rewrite Hu.
  - unfold initPeerJs, checkSignedInWithMessage, showSnackbar, bind, gets, modify, ret.
    by rewrite Hu.
  - done.
Qed.

Lemma signed_out_actions_only_notify_witness :
  saveUser init = Ok tt (set_snackbar [notice "You must sign-in first"] init) ∧
  initPeerJs init = Ok tt (set_snackbar [notice "You must sign-in first"] init).
Proof.
  pose proof (signed_out_actions_only_notify init eq_refl) as (_ & _ & H1 & H2 & _).
  split; [exact H1|exact H2].
Defined.

(** ** Writing needs the reference *)

Lemma setMessage_keeps_ref key val : keeps messagesRef (setMessage key val).
Proof.
  unfold setMessage, displayMessage, write_pic, write_name, write_body, set_pic, set_name,
    alter_message, alter_user, setImageUrl, firebase, setTimeout_visible, fresh.
  keeps_auto.
Qed.

Lemma loadMessages_sets_ref st : messagesRef (settle (loadMessages st)) = true.
Proof.
  unfold loadMessages, bind, modify, gets, replay. simpl.
  rewrite (keeps_deliver_all messagesRef); [done|]. apply setMessage_keeps_ref.
Qed.

Lemma loadMessages_Ok st : loadMessages st = Ok tt (settle (loadMessages st)).
Proof. unfold loadMessages, replay, bind, modify, gets. reflexivity. Qed.

Lemma signed_in_can_write u st :
  messagesRef (settle (onAuthStateChanged (Some u) st)) = true.
Proof.
  unfold onAuthStateChanged.
  match goal with
  | |- context [bind (modify ?f) ?k st] => rewrite (bind_Ok (modify f) k st tt (f st) eq_refl)
  end.
  match goal with
  | |- context [bind loadMessages ?k ?s] =>
      rewrite (bind_Ok loadMessages k s tt _ (loadMessages_Ok s))
  end.
  unfold initMeidaStream, modify. fields. apply loadMessages_sets_ref.
Qed.

Lemma signed_out_can_write st : currentUser (settle (onAuthStateChanged None st)) = currentUser st.
Proof.
  assert (keeps currentUser (onAuthStateChanged None)) as ->; [|done].
  unfold onAuthStateChanged, endPeerJs, clearUsers, broker. keeps_auto.
Qed.

Lemma step_can_write e st : can_write st → can_write (step e st).
Proof.
  intros HP.
  destruct e as [| | | | | | |u| | | | | | | | | | | | | | | | | | |];
    try solve [step_cases can_write ltac:(fail)].
  unfold step, guarded. destruct u as [u|].
  - right. apply signed_in_can_write.
  - left. by rewrite signed_out_can_write.
Qed.

Lemma run_can_write evs : can_write (run evs init).
Proof.
  unfold run. apply (preserves_foldl can_write); [|by left].
  intros st e. apply step_can_write.
Qed.

(** X2.  Whatever happened before, sending a text and sharing a file raise
    nothing: whenever somebody is signed in, the reference to the messages
    collection that both write to has been set, because the page loads the
    messages as soon as somebody signs in. *)
Theorem writing_never_raises (evs : list Event) :
  let st := run evs init in
  (∃ st', saveMessage st = Ok tt st') ∧
  (∀ f fs, ∃ st', saveImageMessage (set_mediaCapture (f :: fs) st) = Ok tt st').
Proof.
  simpl. pose proof (run_can_write evs) as H. set (st := run evs init) in *.
  unfold can_write in H. split.
  - unfold saveMessage, checkSignedInWithMessage, showSnackbar, firebase, bind, gets, modify, ret.
    destruct (decide (messageInput st = "")); [by eexists|].
    destruct (currentUser st) as [u|] eqn:Hu; [|by eexists].
    destruct H as [H|H]; [congruence|]. rewrite ?Hu, ?H. simpl. rewrite ?Hu, ?H. by eexists.
  - intros f fs.
    unfold saveImageMessage, checkSignedInWithMessage, showSnackbar, firebase, bind, gets,
      modify, ret. fields. simpl.
    destruct (occurs "image" (f_type f)); simpl; [|by eexists].
    destruct (currentUser st) as [u|] eqn:Hu; [|by eexists].
    destruct H as [H|H]; [congruence|]. rewrite ?Hu, ?H. simpl. rewrite ?Hu, ?H. by eexists.
Qed.

(** ** A message on its way to the store *)

(** X3.  Sending a text writes the message and leaves the form as it is:
    the field keeps the text until the store has confirmed the write.  A
    second submit before that writes the same message once more. *)
Theorem submit_leaves_field (st : State) (u : AuthUser) :
  currentUser st = Some u → messagesRef st = true → messageInput st ≠ "" →
  let write := Push (text_record u (messageInput st)) ThenResetInput in
  step EvSubmit st = set_firebase_log (firebase_log st ++ [write]) st ∧
  run [EvSubmit; EvSubmit] st
  = set_firebase_log (firebase_log st ++ [write; write]) st.
Proof.
  intros Hu Hr Hv. cbv zeta.
  assert (∀ log, guarded saveMessage (set_firebase_log log st)
                 = set_firebase_log
                     (log ++ [Push (text_record u (messageInput st)) ThenResetInput]) st) as H.
  { intros log. unfold guarded, saveMessage, checkSignedInWithMessage, firebase, bind, gets,
      modify, ret. fields. rewrite decide_False by done. fields. rewrite Hu. fields.
    rewrite Hu, Hr. done. }
  assert (step EvSubmit st
          = set_firebase_log
              (firebase_log st ++ [Push (text_record u (messageInput st)) ThenResetInput]) st)
    as H1.
  { unfold step, guarded, saveMessage, checkSignedInWithMessage, firebase, bind, gets,
      modify, ret. rewrite decide_False by done. rewrite Hu. fields.
    rewrite Hu, Hr. done. }
  split; [done|].
  unfold run. cbn [foldl]. rewrite H1. unfold step. rewrite H. by rewrite <-(assoc_L (++)).
Qed.

Lemma submit_leaves_field_witness :
  run [EvSubmit; EvSubmit] alice_typing
  = set_firebase_log
      (firebase_log alice_typing ++ [Push (text_record alice (messageInput alice_typing))
                                          ThenResetInput;
                                     Push (text_record alice (messageInput alice_typing))
                                          ThenResetInput]) alice_typing.
Proof.
  refine (proj2 (submit_leaves_field alice_typing alice _ _ _)).
  - vm_compute. reflexivity.
  - vm_compute. reflexivity.
  - vm_compute. congruence.
Defined.

Lemma step_input s st :
  step (EvInput s) st = set_submitDisabled (bool_decide (s = "")) (set_messageInput s st).
Proof.
  unfold step, guarded, toggleButton, bind, gets, modify. fields.
  by destruct (decide (s = "")) as [->|?]; [|rewrite bool_decide_eq_false_2].
Qed.

(** X4.  When the store confirms the write of a text, the field is emptied
    and the send button disabled, whatever has been typed since; when it
    rejects the write, the error is logged and the form stays as it is. *)
Theorem settled_write (st : State) (i : nat) (r : MessageRecord) (typed : string) :
  firebase_log st !! i = Some (Push r ThenResetInput) →
  (∀ key now,
     run [EvInput typed; EvPushResolved i key now] st
     = set_submitDisabled true (set_messageInput "" st)) ∧
  step (EvPushRejected i) st = set_console (console st ++ [ErrWrite]) st.
Proof.
  intros Hi. split.
  - intros key now. unfold run. cbn [foldl]. rewrite step_input.
    unfold step. fields. rewrite Hi.
    unfold guarded, push_resolved, resetMaterialTextfield, toggleButton, bind, gets, modify.
    fields. by rewrite decide_True.
  - unfold step. by rewrite Hi.
Qed.

Lemma settled_write_witness :
  run [EvInput "more"; EvPushResolved 0 "k1" "0"] (step EvSubmit alice_typing)
  = set_submitDisabled true (set_messageInput "" (step EvSubmit alice_typing)).
Proof.
  refine (proj1 (settled_write (step EvSubmit alice_typing) 0 (text_record alice "hello") "more" _)
            "k1" "0").
  vm_compute. reflexivity.
Defined.

(** ** An image on its way to the store *)

Lemma pick_image st u f fs :
  currentUser st = Some u → messagesRef st = true → occurs "image" (f_type f) = true →
  step (EvPickFiles (f :: fs)) st
  = set_firebase_log (firebase_log st ++ [Push (placeholder_record u) (ThenUpload u f)])
      (set_mediaCapture [] st).
Proof.
  intros Hu Hr Ht.
  unfold step, guarded, saveImageMessage, checkSignedInWithMessage, showSnackbar, firebase,
    bind, gets, modify, ret. fields. cbn [lookup list_lookup].
  rewrite Ht. cbn [negb]. fields. rewrite Hu. fields. by rewrite Hu, Hr.
Qed.

(** X5.  A signed-in user picks a file whose type passes the image test.
    The placeholder message is pushed first; when the store has given it the
    key [key], the file is put under [uid/now/name] with that key in mind.
    When the upload completes, the message under [key] is updated with the
    locator of the file; when it fails, the error is logged and nothing
    else happens.  A rejected push of the placeholder is not handled: the
    page stays as it was. *)
Theorem image_upload_chain (st : State) (u : AuthUser) (f : File) (fs : list File)
    (key now uri : string) :
  currentUser st = Some u → messagesRef st = true →
  (∃ pre post, f_type f = pre +:+ "image" +:+ post) →
  let n := length (firebase_log st) in
  let path := uid u +:+ "/" +:+ now +:+ "/" +:+ f_name f in
  let uploading := run [EvPickFiles (f :: fs); EvPushResolved n key now] st in
  firebase_log uploading
  = firebase_log st ++ [Push (placeholder_record u) (ThenUpload u f); Put path f key] ∧
  step (EvUploadComplete (S n) uri) uploading
  = set_firebase_log (firebase_log uploading ++ [Update key uri]) uploading ∧
  step (EvUploadError (S n)) uploading
  = set_console (console uploading ++ [ErrUpload]) uploading ∧
  step (EvPushRejected n) (step (EvPickFiles (f :: fs)) st) = step (EvPickFiles (f :: fs)) st.
Proof.
  intros Hu Hr Ht%occurs_iff. cbv zeta.
  pose proof (pick_image st u f fs Hu Hr Ht) as Hpick.
  rewrite Hpick.
  assert (firebase_log
            (run [EvPickFiles (f :: fs); EvPushResolved (length (firebase_log st)) key now] st)
          = firebase_log st ++ [Push (placeholder_record u) (ThenUpload u f);
                                Put (uid u +:+ "/" +:+ now +:+ "/" +:+ f_name f) f key]) as Hlog.
  { unfold run. cbn [foldl]. rewrite Hpick.
    unfold step. fields. rewrite lookup_app_r, Nat.sub_diag by done. cbn [lookup list_lookup].
    unfold guarded, push_resolved, firebase, modify. fields. by rewrite <-(assoc_L (++)). }
  split_and!.
  - exact Hlog.
  - unfold step at 1. rewrite Hlog.
    rewrite lookup_app_r by lia.
    replace (S (length (firebase_log st)) - length (firebase_log st)) with 1 by lia.
    cbn [lookup list_lookup]. unfold guarded, firebase, modify. fields. by rewrite Hlog.
  - unfold step at 1. rewrite Hlog.
    rewrite lookup_app_r by lia.
    replace (S (length (firebase_log st)) - length (firebase_log st)) with 1 by lia.
    done.
  - unfold step. fields. rewrite lookup_app_r, Nat.sub_diag by done. done.
Qed.

Lemma image_upload_chain_witness :
  firebase_log (run [EvPickFiles [{| f_name := "cat.png"; f_type := "image/png" |}];
                     EvPushResolved (length (firebase_log alice_typing)) "k7" "1700000000000"]
                  alice_typing)
  = firebase_log alice_typing
      ++ [Push (placeholder_record alice)
            (ThenUpload alice {| f_name := "cat.png"; f_type := "image/png" |});
          Put (uid alice +:+ "/" +:+ "1700000000000" +:+ "/" +:+ "cat.png")
            {| f_name := "cat.png"; f_type := "image/png" |} "k7"].
Proof.
  refine (proj1 (image_upload_chain alice_typing alice
                   {| f_name := "cat.png"; f_type := "image/png" |} [] "k7" "1700000000000" ""
                   _ _ _)).
  - vm_compute. reflexivity.
  - vm_compute. reflexivity.
  - by exists "", "/png".
Defined.

(** ** The keys of the feed and the uids of the roster *)

Lemma fmap_alter_same {A B} (g : A → B) (f : A → A) (l : list A) (i : nat) :
  (∀ x, g (f x) = g x) → g <$> alter f i l = g <$> l.
Proof.
  intros Hf. revert i. induction l as [|x l IH]; intros [|i]; [done..| |].
  - cbn. by rewrite Hf.
  - cbn. f_equal. apply IH.
Qed.

Lemma set_img_src_id n url d : md_id (set_img_src n url d) = md_id d.
Proof. unfold set_img_src. by repeat case_match. Qed.

Lemma alter_message_ids i f :
  (∀ d, md_id (f d) = md_id d) → keeps entry_ids (alter_message i f).
Proof.
  intros Hf st. unfold alter_message, modify, entry_ids, keys. fields.
  by rewrite fmap_alter_same.
Qed.

Lemma alter_user_ids i f :
  (∀ d, ud_id (f d) = ud_id d) → keeps entry_ids (alter_user i f).
Proof.
  intros Hf st. unfold alter_user, modify, entry_ids, uids. fields.
  by rewrite fmap_alter_same.
Qed.

(** Writing into the elements of the document changes no id of an entry. *)
Ltac keeps_ids :=
  repeat first
    [ (apply alter_message_ids; intros []; reflexivity)
    | (apply alter_user_ids; intros []; reflexivity)
    | keeps_step
    | progress unfold write_pic, write_name, write_body, set_pic, set_name, setImageUrl,
        firebase, setTimeout_visible, fresh, broker ].

Lemma displayMessage_ids key name text picUrl imageUri st :
  entry_ids (settle (displayMessage key name text picUrl imageUri st))
  = (keys st ++ (if getElementById key st is None then [key] else []), uids st).
Proof.
  unfold displayMessage. unfold bind at 1. unfold gets at 1.
  destruct (getElementById key st) as [e|] eqn:He.
  - unfold bind at 1. unfold ret at 1.
    match goal with
    | |- entry_ids (settle (?m st)) = _ => assert (keeps entry_ids m) as ->; [keeps_ids|]
    end.
    by rewrite app_nil_r.
  - unfold bind at 1. unfold bind at 1. unfold gets at 1. unfold bind at 1. unfold modify at 1.
    unfold ret at 1.
    match goal with
    | |- entry_ids (settle (?m ?s)) = _ => assert (keeps entry_ids m) as ->; [keeps_ids|]
    end.
    unfold entry_ids, keys, uids. fields. by rewrite fmap_app.
Qed.

Lemma displayUser_ids id name picUrl pid st :
  entry_ids (settle (displayUser id name picUrl pid st))
  = (keys st, uids st ++ (if getElementById id st is None then [id] else [])).
Proof.
  unfold displayUser. unfold bind at 1. unfold gets at 1.
  destruct (getElementById id st) as [e|] eqn:He.
  - unfold bind at 1. unfold ret at 1.
    match goal with
    | |- entry_ids (settle (?m st)) = _ => assert (keeps entry_ids m) as ->; [keeps_ids|]
    end.
    by rewrite app_nil_r.
  - unfold bind at 1. unfold bind at 1. unfold gets at 1. unfold bind at 1. unfold modify at 1.
    unfold ret at 1.
    match goal with
    | |- entry_ids (settle (?m ?s)) = _ => assert (keeps entry_ids m) as ->; [keeps_ids|]
    end.
    unfold entry_ids, keys, uids. fields. by rewrite fmap_app.
Qed.

Lemma entries_apart_add (k : string) (a b : list string) :
  NoDup (filter (λ k, k ≠ "") (a ++ b)) → k = "" ∨ ((k ∉ a) ∧ (k ∉ b)) →
  NoDup (filter (λ k, k ≠ "") ((a ++ [k]) ++ b)) ∧
  NoDup (filter (λ k, k ≠ "") (a ++ b ++ [k])).
Proof.
  intros H Hk. rewrite !filter_app in *.
  destruct (decide (k = "")) as [->|Hne].
  - rewrite filter_cons_False, filter_nil, !app_nil_r by (by intros ?). done.
  - destruct Hk as [?|[Ha Hb]]; [done|].
    rewrite filter_cons_True, filter_nil by done.
    apply NoDup_app in H as (H1 & H2 & H3).
    assert (k ∉ filter (λ k, k ≠ "") a) as Ha' by (by intros [??]%list_elem_of_filter).
    assert (k ∉ filter (λ k, k ≠ "") b) as Hb' by (by intros [??]%list_elem_of_filter).
    assert (∀ l : list string, k ∉ l → ∀ x, x ∈ l → x ∉ [k]) as Hone.
    { intros l Hl x Hx ->%list_elem_of_singleton. done. }
    split.
    + apply NoDup_app. split_and!; [| |done].
      * apply NoDup_app. split_and!; [done|by apply Hone|apply NoDup_singleton].
      * intros x [Hx| ->%list_elem_of_singleton]%elem_of_app; [by apply H2|done].
    + apply NoDup_app. split_and!; [done| |].
      * intros x Hx [Hb''| ->%list_elem_of_singleton]%elem_of_app; [by apply (H2 x)|done].
      * apply NoDup_app. split_and!; [done|by apply Hone|apply NoDup_singleton].
Qed.

Lemma not_found_apart id st :
  getElementById id st = None → id = "" ∨ ((id ∉ keys st) ∧ (id ∉ uids st)).
Proof.
  intros [?|H]%getElementById_None; [by left|right].
  unfold document_ids in H. rewrite !not_elem_of_app in H.
  destruct H as (_ & _ & Hk & _ & Hr). split; [done|].
  intros (d & -> & Hd)%list_elem_of_fmap. apply Hr.
  unfold roster_ids. apply list_elem_of_bind. exists d. split; [by left|done].
Qed.

Lemma displayMessage_apart key name text picUrl imageUri :
  preserves entries_apart (displayMessage key name text picUrl imageUri).
Proof.
  intros st H. unfold entries_apart.
  pose proof (displayMessage_ids key name text picUrl imageUri st) as [= -> ->].
  destruct (getElementById key st) eqn:He; [by rewrite app_nil_r|].
  by apply entries_apart_add, not_found_apart.
Qed.

Lemma displayUser_apart id name picUrl pid :
  preserves entries_apart (displayUser id name picUrl pid).
Proof.
  intros st H. unfold entries_apart.
  pose proof (displayUser_ids id name picUrl pid st) as [= -> ->].
  destruct (getElementById id st) eqn:He; [by rewrite app_nil_r|].
  by apply entries_apart_add, not_found_apart.
Qed.

Lemma clearUsers_apart : preserves entries_apart clearUsers.
Proof.
  intros st H. unfold clearUsers, modify, entries_apart, uids in *. fields.
  rewrite fmap_nil, app_nil_r. rewrite filter_app in H. by apply NoDup_app in H as (? & _).
Qed.

Lemma step_entries_apart e st : entries_apart st → entries_apart (step e st).
Proof.
  intros HP. destruct e;
    step_cases entries_apart
      ltac:(first [ lazymatch goal with
                    | |- preserves _ (displayMessage _ _ _ _ _) => apply displayMessage_apart
                    | |- preserves _ (displayUser _ _ _ _) => apply displayUser_apart
                    | |- preserves _ clearUsers => apply clearUsers_apart
                    end
                  | progress unfold setMessage, setUser, unsetUser, reloadUsers ]).
  unfold entries_apart, keys, uids in *. fields.
  rewrite <-list_fmap_compose.
  erewrite list_fmap_ext; [exact HP|]. intros ? d _. apply set_img_src_id.
Qed.

(** X6.  Whatever the events, no two entries that the page shows, messages
    and users together, have the same id, unless the id is empty: an entry
    is made only when [getElementById] found no element with its id. *)
Theorem entries_have_ids_of_their_own (evs : list Event) :
  NoDup (filter (λ k, k ≠ "") (keys (run evs init) ++ uids (run evs init))).
Proof.
  change (entries_apart (run evs init)).
  unfold run. apply (preserves_foldl entries_apart).
  - intros st e. apply step_entries_apart.
  - apply NoDup_nil_2.
Qed.

(** ** The feed only grows *)

Lemma displayMessage_extends ks key name text picUrl imageUri :
  preserves (λ st, ks `prefix_of` keys st) (displayMessage key name text picUrl imageUri).
Proof.
  intros st H.
  pose proof (displayMessage_ids key name text picUrl imageUri st) as [= -> _].
  by apply prefix_app_r.
Qed.

Lemma displayUser_extends ks id name picUrl pid :
  preserves (λ st, ks `prefix_of` keys st) (displayUser id name picUrl pid).
Proof.
  intros st H. by pose proof (displayUser_ids id name picUrl pid st) as [= -> _].
Qed.

Lemma step_extends_keys ks e st : ks `prefix_of` keys st → ks `prefix_of` keys (step e st).
Proof.
  intros HP. destruct e;
    step_cases (λ st, ks `prefix_of` keys st)
      ltac:(first [ lazymatch goal with
                    | |- preserves _ (displayMessage _ _ _ _ _) => apply displayMessage_extends
                    | |- preserves _ (displayUser _ _ _ _) => apply displayUser_extends
                    end
                  | progress unfold setMessage, setUser, unsetUser, reloadUsers ]).
  unfold keys in *. fields. rewrite <-list_fmap_compose.
  erewrite list_fmap_ext; [exact HP|]. intros ? d _. apply set_img_src_id.
Qed.

(** X7.  The feed is append-only: whatever happens, the entries that are
    shown stay, in their order, and new ones come after them.  Nothing in
    the page removes a message, signing out included. *)
Theorem feed_only_grows (evs : list Event) (st : State) :
  keys st `prefix_of` keys (run evs st).
Proof.
  unfold run. apply (preserves_foldl (λ st', keys st `prefix_of` keys st')); [|done].
  intros st' e. apply step_extends_keys.
Qed.

(** ** What signing in shows *)












(** ** Presence *)

Lemma presence_guarded_snoc log c :
  is_SetUser c = false → presence_guarded log → presence_guarded (log ++ [c]).
Proof.
  intros Hc H i u r Hi.
  apply lookup_app_Some in Hi as [Hi|[Hlen Hi]].
  - destruct (H i u r Hi) as (j & -> & Hj). exists j. split; [done|].
    by apply lookup_app_l_Some.
  - apply list_lookup_singleton_Some in Hi as [_ ->]. done.
Qed.

Lemma presence_guarded_saved log u r :
  presence_guarded log → presence_guarded (log ++ [OnDisconnectRemove u; SetUser u r]).
Proof.
  intros H i u' r' Hi.
  apply lookup_app_Some in Hi as [Hi|[Hlen Hi]].
  - destruct (H i u' r' Hi) as (j & -> & Hj). exists j. split; [done|].
    by apply lookup_app_l_Some.
  - destruct (i - length log) as [|[|k]] eqn:Hk; simpl in Hi; [done| |done].
    injection Hi as <- <-. exists (length log). split; [lia|].
    by rewrite list_lookup_middle.
Qed.

Lemma firebase_guarded c :
  is_SetUser c = false → preserves (λ st, presence_guarded (firebase_log st)) (firebase c).
Proof. intros Hc st H. unfold firebase, modify. fields. by apply presence_guarded_snoc. Qed.

Lemma saveUser_guarded : preserves (λ st, presence_guarded (firebase_log st)) saveUser.
Proof.
  intros st H. unfold saveUser, checkSignedInWithMessage, showSnackbar, firebase, bind, gets,
    modify, ret.
  destruct (currentUser st) as [u|] eqn:Hu; fields; [|done].
  rewrite Hu. fields. rewrite <-(assoc_L (++)). by apply presence_guarded_saved.
Qed.

Lemma step_presence_guarded e st :
  presence_guarded (firebase_log st) → presence_guarded (firebase_log (step e st)).
Proof.
  intros HP. destruct e;
    step_cases (λ st, presence_guarded (firebase_log st))
      ltac:(first [ lazymatch goal with
                    | |- preserves _ saveUser => apply saveUser_guarded
                    | |- preserves _ (firebase _) => apply firebase_guarded; reflexivity
                    end
                  | progress unfold signIn, signOut ]).
Qed.

(** X10.  Presence never outlives the connection: in every run, each write
    of a presence record comes right after the request to remove that same
    record when the connection is lost. *)
Theorem presence_removed_on_disconnect (evs : list Event) (i : nat) (u : string)
    (r : UserRecord) :
  firebase_log (run evs init) !! i = Some (SetUser u r) →
  ∃ j, i = S j ∧ firebase_log (run evs init) !! j = Some (OnDisconnectRemove u).
Proof.
  revert i u r. change (presence_guarded (firebase_log (run evs init))).
  unfold run. apply (preserves_foldl (λ st, presence_guarded (firebase_log st))).
  - intros st e. apply step_presence_guarded.
  - intros i u r Hi. unfold init in Hi. fields_in Hi. by rewrite lookup_nil in Hi.
Qed.

Lemma presence_removed_on_disconnect_witness :
  ∃ j, 1 = S j ∧ firebase_log signed_in !! j = Some (OnDisconnectRemove "alice").
Proof.
  apply (presence_removed_on_disconnect [EvAuthStateChanged (Some alice); EvMediaGranted 0 7]
           1 "alice" (presence_record alice None)).
  vm_compute. reflexivity.
Defined.

(** ** Connection state *)

Lemma saveUser_spec st u :
  currentUser st = Some u →
  saveUser st
  = Ok tt (set_firebase_log
             (firebase_log st ++ [OnDisconnectRemove (uid u);
                                  SetUser (uid u) (presence_record u (peerId st))]) st).
Proof.
  intros Hu. unfold saveUser, checkSignedInWithMessage, firebase, bind, gets, modify, ret.
  rewrite Hu. fields. rewrite Hu. fields. by rewrite <-(assoc_L (++)).
Qed.

Lemma onOnlineState_Ok v st : ∃ st', onOnlineState v st = Ok tt st' ∧ isOnline st' = Some v.
Proof.
  unfold onOnlineState. unfold bind at 1. unfold gets at 1.
  destruct (v && negb (default false (isOnline st))) eqn:E1;
    [|destruct (negb v && default false (isOnline st)) eqn:E2].
  - unfold showSnackbar, initPeerJs, checkSignedInWithMessage, broker, fresh, bind, gets, modify,
      ret. fields.
    destruct (currentUser st) as [u|] eqn:Hu; fields.
    + rewrite (saveUser_spec _ u) by exact Hu. by eexists.
    + unfold saveUser, checkSignedInWithMessage, showSnackbar, bind, gets, modify, ret.
      fields. rewrite Hu. by eexists.
  - unfold showSnackbar, endPeerJs, clearUsers, broker, bind, gets, modify, ret. fields.
    destruct (peer st); by eexists.
  - unfold bind, modify, ret. by eexists.
Qed.

Lemma set_isOnline_same st v : isOnline st = v → set_isOnline v st = st.
Proof. destruct st. simpl. by intros ->. Qed.

(** X11.  The page reacts to a change of the connection state, not to the
    state: a report that repeats the last one changes nothing. *)
Theorem connection_state_is_edge_triggered (b : bool) (st : State) :
  step (EvOnline b) (step (EvOnline b) st) = step (EvOnline b) st.
Proof.
  destruct (onOnlineState_Ok b st) as (st' & Hrun & Hb).
  assert (step (EvOnline b) st = st') as -> by (unfold step, guarded; by rewrite Hrun).
  unfold step, guarded, onOnlineState, bind, gets, modify, ret.
  rewrite Hb. cbn [default]. rewrite andb_negb_r, andb_negb_l. cbn [settle].
  by apply set_isOnline_same.
Qed.

Lemma went_offline st :
  isOnline st = Some true →
  step (EvOnline false) st
  = set_isOnline (Some false)
      (set_userList []
         (set_peer None
            (set_broker_log
               (broker_log st ++ (if peer st is Some pr then [Destroy (peer_no pr)] else []))
               (set_snackbar (snackbar st ++ [notice "disconnected"]) st)))).
Proof.
  intros Ho.
  unfold step, guarded, onOnlineState, showSnackbar, endPeerJs, clearUsers, broker, bind, gets,
    modify, ret. rewrite Ho. cbn [default from_option id negb andb]. fields.
  destruct (peer st) as [pr|] eqn:Hpr; fields; [done|].
  rewrite app_nil_r. destruct st; cbn in *; by subst.
Qed.

Lemma went_online st u :
  currentUser st = Some u → isOnline st = Some false →
  step (EvOnline true) st
  = set_isOnline (Some true)
      (set_firebase_log
         (firebase_log st ++ [OnDisconnectRemove (uid u);
                              SetUser (uid u) (presence_record u (peerId st))])
         (set_peer (Some {| peer_no := next_id st; connections := ∅ |})
            (set_broker_log (broker_log st ++ [NewPeer (next_id st)])
               (set_next_id (S (next_id st))
                  (set_snackbar (snackbar st ++ [notice "connected"]) st))))).
Proof.
  intros Hu Ho.
  unfold step, guarded, onOnlineState, showSnackbar, initPeerJs, checkSignedInWithMessage, broker,
    fresh, bind, gets, modify, ret. rewrite Ho. cbn [default from_option id negb andb]. fields.
  rewrite Hu. fields. rewrite (saveUser_spec _ u) by exact Hu. reflexivity.
Qed.

(** X12.  After a reconnect the presence record names a peer that is gone.
    While a user is signed in with an open peer, the connection is lost and
    comes back: the old peer is destroyed and a new one made, and the
    presence record is written at once, before the new peer has opened,
    with the identifier of the old one.  The roster is left empty. *)
Theorem reconnect_publishes_old_peer_id (st : State) (u : AuthUser) (p : string) :
  currentUser st = Some u → peerId st = Some p → p ≠ "" → isOnline st = Some true →
  let st' := run [EvOnline false; EvOnline true] st in
  firebase_log st'
  = firebase_log st ++ [OnDisconnectRemove (uid u);
                        SetUser (uid u) (presence_record u (Some p))] ∧
  ur_peerId (presence_record u (Some p)) = Some p ∧
  broker_log st'
  = broker_log st ++ (if peer st is Some pr then [Destroy (peer_no pr)] else [])
      ++ [NewPeer (next_id st)] ∧
  peer st' = Some {| peer_no := next_id st; connections := ∅ |} ∧
  userList st' = [].
Proof.
  intros Hu Hp Hne Ho. cbv zeta. unfold run. cbn [foldl].
  rewrite (went_offline st Ho).
  rewrite (went_online _ u); [|exact Hu|done].
  fields. rewrite Hp. split_and!; try reflexivity.
  - unfold presence_record, truthy. by rewrite decide_False.
  - by rewrite <-(assoc_L (++)).
Qed.

Lemma reconnect_publishes_old_peer_id_witness :
  firebase_log (run [EvOnline false; EvOnline true] alice_online)
  = firebase_log alice_online
      ++ [OnDisconnectRemove (uid alice);
          SetUser (uid alice) (presence_record alice (Some "p-alice"))].
Proof.
  refine (proj1 (reconnect_publishes_old_peer_id alice_online alice "p-alice" _ _ _ _)).
  - vm_compute. reflexivity.
  - vm_compute. reflexivity.
  - vm_compute. congruence.
  - vm_compute. reflexivity.
Defined.

(** ** Signing out *)

(** X13.  Signing out ends the peer and empties the roster, and nothing
    more: a call that is held, its handlers, the stream, the feed and the
    subscriptions to both collections stay, and nothing is written to the
    store.  So a user added afterwards is drawn again, for nobody: with the
    button of the template, which has no id, no icon and no listener. *)
Theorem sign_out_keeps_subscriptions (st : State) :
  let st' := step (EvAuthStateChanged None) st in
  (currentUser st' = None ∧ peer st' = None ∧ userList st' = [] ∧
   broker_log st'
   = broker_log st ++ (if peer st is Some pr then [Destroy (peer_no pr)] else [])) ∧
  (call st' = call st ∧ call_on st' = call_on st ∧ mediaStream st' = mediaStream st ∧
   user_subs st' = user_subs st ∧ msg_subs st' = msg_subs st ∧
   messageList st' = messageList st ∧ firebase_log st' = firebase_log st) ∧
  (∀ key val,
     child_added ∈ user_subs st → key ≠ "" →
     key ∉ page_ids ++ ["messages"] ++ keys st ++ ["users"] →
     userList (step (EvUserAdded key val) st') = [anonymous_entry key val]).
Proof.
  cbv zeta.
  assert (step (EvAuthStateChanged None) st
          = set_userList []
              (set_peer None
                 (set_broker_log
                    (broker_log st ++ (if peer st is Some pr then [Destroy (peer_no pr)] else []))
                    (set_chrome {| userPic := userPic (chrome st); userName := userName (chrome st);
                                   profileHidden := true; signInHidden := false |}
                       (set_currentUser None st))))) as ->.
  { unfold step, guarded, onAuthStateChanged, endPeerJs, clearUsers, broker, bind, gets, modify,
      ret. fields.
    destruct (peer st) as [pr|] eqn:Hpr; fields; [done|].
    rewrite app_nil_r. destruct st; simpl in *; by subst. }
  fields. split_and!; try done.
  intros key val Hsub Hne Hids.
  unfold step, deliver_user. fields. rewrite bool_decide_eq_true_2 by done.
  unfold guarded, setUser, displayUser.
  unfold bind at 1. unfold gets at 1.
  match goal with
  | |- context [getElementById key ?s] => assert (getElementById key s = None) as ->
  end.
  { apply getElementById_None. right. unfold document_ids, keys. fields.
    intros Hin. apply Hids. revert Hin. unfold keys.
    rewrite !elem_of_app, !elem_of_cons, ?elem_of_nil. tauto. }
  unfold write_pic, write_name, set_pic, set_name, query_part, query_phone, alter_user,
    setTimeout_visible, is_uid, is_other, bind, gets, modify, when, ret. fields.
  unfold anonymous_entry.
  destruct (truthy (ur_photoUrl val)); fields; done.
Qed.

(** ** The peer held *)

Lemma fresh_in_order : preserves peers_in_order fresh.
Proof.
  intros st (Hn & Hd & Hp). unfold fresh, bind, gets, modify, ret, peers_in_order. fields.
  split_and!; try done. intros n ?%Hn. lia.
Qed.

Lemma broker_in_order c :
  is_NewPeer c = false → is_Destroy c = false → preserves peers_in_order (broker c).
Proof.
  intros Hc1 Hc2 st (Hn & Hd & Hp). unfold broker, modify, peers_in_order. fields.
  split_and!.
  - intros n [?| <-%list_elem_of_singleton]%elem_of_app; [auto|done].
  - intros n [?| <-%list_elem_of_singleton]%elem_of_app; [|done].
    apply elem_of_app. left. auto.
  - intros pr [H1 H2]%Hp. split; [apply elem_of_app; by left|].
    intros [?| <-%list_elem_of_singleton]%elem_of_app; done.
Qed.

Lemma initPeerJs_in_order : preserves peers_in_order initPeerJs.
Proof.
  intros st H. pose proof H as (Hn & Hd & Hp).
  unfold initPeerJs, checkSignedInWithMessage, showSnackbar, broker, fresh, bind, gets, modify,
    ret.
  destruct (currentUser st); fields; [|exact H].
  unfold peers_in_order. fields. split_and!.
  - intros n [?%Hn| [= ->]%list_elem_of_singleton]%elem_of_app; lia.
  - intros n [?| [=]%list_elem_of_singleton]%elem_of_app.
    apply elem_of_app. left. auto.
  - intros pr [= <-]. cbn [peer_no]. split.
    + apply elem_of_app. right. by left.
    + intros [?%Hd%Hn| [=]%list_elem_of_singleton]%elem_of_app. lia.
Qed.

Lemma endPeerJs_in_order : preserves peers_in_order endPeerJs.
Proof.
  intros st H. pose proof H as (Hn & Hd & Hp).
  unfold endPeerJs, broker, bind, gets, modify, ret.
  destruct (peer st) as [pr|] eqn:Hpr; fields; [|exact H].
  destruct (Hp pr eq_refl) as [H1 H2].
  unfold peers_in_order. fields. split_and!; [| |done].
  - intros n [?| [=]%list_elem_of_singleton]%elem_of_app. auto.
  - intros n [?| [= ->]%list_elem_of_singleton]%elem_of_app; apply elem_of_app; left; auto.
Qed.

Lemma same_peer_in_order pr table st :
  peer st = Some pr → peers_in_order st →
  peers_in_order (set_peer (Some {| peer_no := peer_no pr; connections := table |}) st).
Proof.
  intros Hpr (Hn & Hd & Hp). unfold peers_in_order. fields. split_and!; try done.
  intros ? [= <-]. cbn [peer_no]. by apply Hp.
Qed.

Lemma peer_call_in_order remote : preserves peers_in_order (peer_call remote).
Proof.
  intros st H. unfold peer_call. unfold bind at 1. unfold gets at 1.
  destruct (peer st) as [pr|] eqn:Hpr; [|done].
  unfold bind at 1. unfold gets at 1. unfold bind at 1.
  pose proof (fresh_in_order st H) as H1.
  assert (peer (settle (fresh st)) = Some pr) as Hpr1 by done.
  destruct (fresh st) as [n st1|st1]; cbn [settle] in *; [|done].
  unfold bind at 1.
  pose proof (broker_in_order (PlaceCall remote (mediaStream st) n) eq_refl eq_refl st1 H1) as H2.
  assert (peer (settle (broker (PlaceCall remote (mediaStream st) n) st1)) = Some pr) as Hpr2
    by done.
  destruct (broker _ st1) as [[] st2|st2]; cbn [settle] in *; [|done].
  unfold bind, modify, ret. cbn [settle]. by apply same_peer_in_order.
Qed.

Ltac in_order_known :=
  first [ lazymatch goal with
          | |- preserves _ fresh => apply fresh_in_order
          | |- preserves _ initPeerJs => apply initPeerJs_in_order
          | |- preserves _ endPeerJs => apply endPeerJs_in_order
          | |- preserves _ (peer_call _) => apply peer_call_in_order
          | |- preserves _ (broker _) => apply broker_in_order; reflexivity
          end
        | progress unfold ensurePeer ].

Lemma step_in_order e st : peers_in_order st → peers_in_order (step e st).
Proof.
  intros HP. destruct e; step_cases peers_in_order ltac:(in_order_known).
  all: try (by apply same_peer_in_order).
Qed.

(** X14.  The peer the page holds is one it has made and not destroyed:
    whatever the events, [this.peer] names a peer of the broker's that is
    still there. *)
Theorem held_peer_is_live (evs : list Event) (pr : Peer) :
  peer (run evs init) = Some pr →
  NewPeer (peer_no pr) ∈ broker_log (run evs init) ∧
  Destroy (peer_no pr) ∉ broker_log (run evs init).
Proof.
  revert pr.
  assert (peers_in_order (run evs init)) as (_ & _ & H); [|done].
  unfold run. apply (preserves_foldl peers_in_order).
  - intros st e. apply step_in_order.
  - split_and!; [intros ? []%elem_of_nil..|done].
Qed.

Lemma held_peer_is_live_witness :
  NewPeer 0 ∈ broker_log signed_in ∧ Destroy 0 ∉ broker_log signed_in.
Proof.
  apply (held_peer_is_live [EvAuthStateChanged (Some alice); EvMediaGranted 0 7]
           {| peer_no := 0; connections := ∅ |}).
  vm_compute. reflexivity.
Defined.

(** ** Text is shown as text *)

Lemma inert_nil : inert "".
Proof. intros [|a pre] post H; discriminate. Qed.

Lemma inert_cons c h : c ≠ "<"%char → inert h → inert (String c h).
Proof.
  intros Hc Hh [|a pre] post H.
  - rewrite append_nil in H. injection H as -> _. done.
  - rewrite append_cons in H. injection H as _ ->. by apply (Hh pre).
Qed.

Lemma inert_br h : inert h → inert ("<br>" +:+ h).
Proof.
  intros Hh [|a pre] post H.
  - rewrite append_nil in H. injection H as <-. by exists h.
  - rewrite append_cons in H. injection H as _ H.
    revert pre post H. change (inert (String "b" (String "r" (String ">" h)))).
    by repeat (apply inert_cons; [done|]).
Qed.

Lemma escapeHTML_cons c s :
  escapeHTML (String c s)
  = if decide (c = "&"%char) then "&amp;" +:+ escapeHTML s
    else if decide (c = "<"%char) then "&lt;" +:+ escapeHTML s
    else if decide (c = ">"%char) then "&gt;" +:+ escapeHTML s
    else match s with
         | String d s' =>
             if decide (c = "194"%char ∧ d = "160"%char) then "&nbsp;" +:+ escapeHTML s'
             else String c (escapeHTML s)
         | EmptyString => String c EmptyString
         end.
Proof. done. Qed.

Lemma replace_newlines_cons c s :
  replace_newlines (String c s)
  = if decide (c = newline) then "<br>" +:+ replace_newlines s
    else String c (replace_newlines s).
Proof. done. Qed.

Lemma rendered_inert n s : String.length s ≤ n → inert (replace_newlines (escapeHTML s)).
Proof.
  revert s. induction n as [|n IH]; intros [|c s] Hn; try apply inert_nil; [simpl in Hn; lia|].
  assert (inert (replace_newlines (escapeHTML s))) as Hs by (apply IH; simpl in Hn; lia).
  rewrite escapeHTML_cons.
  destruct (decide (c = "&"%char)) as [->|H1].
  { change (inert (String "&" (String "a" (String "m" (String "p" (String ";"
              (replace_newlines (escapeHTML s)))))))).
    by repeat (apply inert_cons; [done|]). }
  destruct (decide (c = "<"%char)) as [->|H2].
  { change (inert (String "&" (String "l" (String "t" (String ";"
              (replace_newlines (escapeHTML s))))))).
    by repeat (apply inert_cons; [done|]). }
  destruct (decide (c = ">"%char)) as [->|H3].
  { change (inert (String "&" (String "g" (String "t" (String ";"
              (replace_newlines (escapeHTML s))))))).
    by repeat (apply inert_cons; [done|]). }
  assert (inert (replace_newlines (String c (escapeHTML s)))) as Hc.
  { rewrite replace_newlines_cons. case_decide; [by apply inert_br|by apply inert_cons]. }
  destruct s as [|d s]; [|case_decide as Hn2]; [| |done].
  - rewrite replace_newlines_cons. case_decide; [by apply inert_br|by apply inert_cons].
  - assert (inert (replace_newlines (escapeHTML s))) as Hs' by (apply IH; simpl in Hn; lia).
    change (inert (String "&" (String "n" (String "b" (String "s" (String "p" (String ";"
              (replace_newlines (escapeHTML s))))))))).
    by repeat (apply inert_cons; [done|]).
Qed.

(** X9.  The text of a message is shown as text.  A message with a text,
    under a key that is the id of no element, gets an entry of its own whose
    content is markup in which every [<] opens a [<br>]: whatever the text
    holds, it brings no element of its own into the page. *)
Theorem text_is_shown_as_text (key name text : string) (picUrl imageUri : jsstring)
    (st : State) :
  getElementById key st = None → text ≠ "" →
  ∃ d html,
    messageList (settle (displayMessage key name (Some text) picUrl imageUri st))
    = messageList st ++ [d] ∧
    md_id d = key ∧ md_body d = BodyHtml html ∧
    ∀ pre post, html = pre +:+ String "<" post → ∃ rest, post = "br>" +:+ rest.
Proof.
  intros Hnew Ht.
  unfold displayMessage, write_pic, write_name, write_body, set_pic, set_name, query_part,
    query_message, alter_message, setTimeout_visible, fresh, setImageUrl, firebase,
    bind, gets, modify, when, ret.
  rewrite Hnew. fields.
  assert (truthy (Some text) = true) as -> by (unfold truthy; by rewrite decide_False).
  destruct (truthy picUrl); fields; rewrite !alter_last.
  all: eexists _, _; split_and!; [reflexivity|done|reflexivity|].
  all: apply (rendered_inert (String.length text)); done.
Qed.

Lemma text_is_shown_as_text_witness :
  ∃ d html,
    messageList (settle (displayMessage "m1" "Carol" (Some "<b>hi</b>") None None
                           alice_sees_bob))
    = messageList alice_sees_bob ++ [d] ∧
    md_id d = "m1" ∧ md_body d = BodyHtml html ∧
    ∀ pre post, html = pre +:+ String "<" post → ∃ rest, post = "br>" +:+ rest.
Proof.
  apply (text_is_shown_as_text "m1" "Carol" "<b>hi</b>" None None alice_sees_bob).
  - vm_compute. reflexivity.
  - done.
Defined.

(** ** Signals that end a call *)

(** X15.  The signals a call has a handler for end the session.  A call
    placed with [callToUser] is given up when the broker signals that it
    closed or failed; a call taken with [answerCall] is given up when the
    broker signals that it failed.  In each case [this.call] is null
    afterwards. *)
Theorem registered_signals_end_the_call (st st' : State) (s' : Stream) :
  (∀ p s,
     mediaStream st = Some s → callToUser p st = Ok tt st' →
     ∃ n, call st' = Some {| c_no := n; c_peer := p |} ∧
          call (step (EvCallSignal n on_close s') st') = None ∧
          call (step (EvCallSignal n on_error s') st') = None) ∧
  (∀ user c,
     answerCall user c st = Ok tt st' →
     call st' = Some c ∧ call (step (EvCallSignal (c_no c) on_error s') st') = None).
Proof.
  split.
  - intros p s Hs Hrun.
    destruct (callToUser_spec p s st Hs) as (st1 & st2 & _ & _ & Hrun' & Hok).
    rewrite Hrun in Hrun'. destruct (peer st1) as [pr|] eqn:Hpr; [|done].
    injection Hrun' as ->. destruct Hok as (Hc & _ & _ & _ & Hon); [done|].
    exists (next_id st1). split_and!; [done|..].
    + apply call_signal_ends_session. exists HEndCall. split; [|done].
      rewrite Hon. apply elem_of_app. right. by left.
    + apply call_signal_ends_session. exists HLogEndCall. split; [|done].
      rewrite Hon. apply elem_of_app. right. right. by left.
  - intros user c Hrun.
    destruct (answerCall_spec user c st) as (st2 & Hrun' & Hc & _ & _ & _ & Hon).
    rewrite Hrun in Hrun'. injection Hrun' as ->. split; [done|].
    apply call_signal_ends_session. exists HLogEndCall. split; [|done].
    rewrite Hon. apply elem_of_app. right. right. by left.
Qed.

Lemma registered_signals_end_the_call_witness :
  ∃ n, call (settle (callToUser (Some "p-bob") alice_sees_bob))
       = Some {| c_no := n; c_peer := Some "p-bob" |} ∧
       call (step (EvCallSignal n on_close 0) (settle (callToUser (Some "p-bob") alice_sees_bob)))
       = None ∧
       call (step (EvCallSignal n on_error 0) (settle (callToUser (Some "p-bob") alice_sees_bob)))
       = None.
Proof.
  apply (proj1 (registered_signals_end_the_call alice_sees_bob
                  (settle (callToUser (Some "p-bob") alice_sees_bob)) 0) (Some "p-bob") 7).
  - vm_compute. reflexivity.
  - vm_compute. reflexivity.
Defined.
